(** * doomscroll-doctor: the session / nudge state machine of [monitor.py]

    A shallow embedding of [ActivityMonitor] (src/monitor.py), of the
    notifier (src/notifier.py), of the tray application that drives them
    (src/tray_app.py) and of the activity log (src/logger.py).

    Conventions of the embedding.
    - A naive [datetime] is the number of microseconds on the wall-clock
      timeline; subtraction, [total_seconds()] and [date()] are then plain
      arithmetic.
    - Python floats are read as exact rationals ([Q]); rounding is not
      modelled.  The numbers of the configuration are ints or floats, read
      as rationals too.  Comparing an int with a float is exact in Python;
      arithmetic between them first converts the int to a float, which
      raises [OverflowError] for an int beyond the range of a double, and
      that conversion is modelled ([to_float]).
    - [datetime.now()] is an oracle: the k-th call of the process returns
      [clock k].  The monitor reads the clock several times per poll, and
      every read is a separate reading here.
    - An exception leaves the mutations made before it in place, as in
      Python; [tray_app.monitor_loop] catches it and keeps polling.
    - The window-title probe is outside the program: [update_session] takes
      the value returned by [detect_current_site] as its argument.
    - [print] appends a line to the console and is taken to succeed; only
      the session lines of [update_session] and [_end_session] are kept.
    - The JSON configuration is typed: limits and intervals are numbers,
      [hard_block] is a boolean, and each key of a site may be missing.
    - A dict is a finite map.  The order in which [daily_stats] is
      iterated shows only in which exception [get_daily_summary] raises
      when two sites fail in different ways; the model iterates in the
      order of [map_to_list].
    - The tray thread and the polling thread are interleaved operation by
      operation: [update_session] and [get_daily_summary] are atomic. *)

From Stdlib Require Import ZArith QArith Qabs Lqa Lia.
From stdpp Require Import gmap strings list fin_maps.

Local Open Scope Z_scope.

(** ** Time *)

Definition datetime := Z.
Definition date := Z.

Definition microseconds_per_day : Z := 86400000000.

(** [t.date()] *)
Definition date_of (t : datetime) : date := t / microseconds_per_day.

(** [delta.total_seconds()] for a delta of [d] microseconds *)
Definition total_seconds (d : Z) : Q := (inject_Z d / 1000000)%Q.

(** [(b - a).total_seconds() / 60] *)
Definition minutes_between (a b : datetime) : Q := (total_seconds (b - a) / 60)%Q.

(** [x >= y] and [x > y] on numbers *)
Definition Qge_bool (x y : Q) : bool := Qle_bool y x.
Definition Qgt_bool (x y : Q) : bool := negb (Qle_bool x y).

(** [float(n)] raises [OverflowError] for an int [n] that rounds beyond the
    largest double, that is when [|n| >= 2^1024 - 2^970].  Every finite
    float is below that bound, so a number at or above it is an int. *)
Definition float_bound : Q := Eval vm_compute in inject_Z (2 ^ 1024 - 2 ^ 970).

(** Can [x] take part in float arithmetic? *)
Definition fits_float (x : Q) : bool := negb (Qle_bool float_bound (Qabs x)).
Arguments fits_float : simpl never.

(** ** Configuration *)

Record SiteConfig := mkSiteConfig {
  daily_limit : option Q;
  nudge_interval : option Q;
  hard_block : option bool
}.

Record WorkHours := mkWorkHours {
  enabled : bool;
  start : string;
  end_ : string;
  stricter_limits : bool
}.

Record Config := mkConfig {
  cfg_tracked_sites : option (gmap string SiteConfig);
  cfg_work_hours : option WorkHours
}.

(** What [config_path] holds when the monitor starts: no file, where one
    can be created ([NoFile]) or not ([Unwritable]); a file that cannot be
    opened ([Unreadable]); text that is not JSON ([NotJson]); a JSON value
    that is not an object ([NotObject]); a JSON object ([Json]). *)
Inductive ConfigFile :=
| NoFile
| Unwritable
| Unreadable
| NotJson
| NotObject
| Json (c : Config).

Inductive Exn :=
| KeyError
| JSONDecodeError
| TypeError
| OSError
| OverflowError.

Inductive Result (A : Type) :=
| Ok (a : A)
| Raise (e : Exn).
Arguments Ok {A} a.
Arguments Raise {A} e.

Definition default_sites : gmap string SiteConfig :=
  <["youtube.com" := mkSiteConfig (Some 60%Q) (Some 15%Q) (Some false)]> (
  <["reddit.com" := mkSiteConfig (Some 30%Q) (Some 10%Q) (Some false)]> (
  <["twitter.com" := mkSiteConfig (Some 30%Q) (Some 10%Q) (Some false)]> (
  <["facebook.com" := mkSiteConfig (Some 30%Q) (Some 10%Q) (Some false)]> ∅))).

Definition default_config : Config :=
  {| cfg_tracked_sites := Some default_sites;
     cfg_work_hours := Some (mkWorkHours true "09:00" "17:00" true) |}.

(** [load_config]: the file after the call, and [(self.config,
    self.tracked_sites)] or the exception.  An existing file is opened and
    parsed, and [config["tracked_sites"]] is looked up in the result; when
    there is no file, [save_config] writes the defaults, or raises when it
    cannot open the file for writing. *)
Definition load_config (file : ConfigFile)
  : ConfigFile * Result (Config * gmap string SiteConfig) :=
  match file with
  | Json config =>
      match cfg_tracked_sites config with
      | Some ts => (file, Ok (config, ts))
      | None => (file, Raise KeyError)
      end
  | NotObject => (file, Raise TypeError)
  | NotJson => (file, Raise JSONDecodeError)
  | Unreadable => (file, Raise OSError)
  | Unwritable => (file, Raise OSError)
  | NoFile =>
      let config := default_config in
      match cfg_tracked_sites config with
      | Some ts => (Json config, Ok (config, ts))
      | None => (Json config, Raise KeyError)
      end
  end.

(** ** The monitor object and the world around it *)

Record Monitor := mkMonitor {
  config : Config;
  tracked_sites : gmap string SiteConfig;
  current_site : option string;
  session_start : option datetime;
  last_nudge_time : option datetime;
  daily_stats : gmap string Q;
  last_reset : date
}.

Inductive Line :=
| Started (site : string)
| Switched (site : string)
| Ended (site : string) (duration : Q)
| TotalToday (site : string) (total : Q).

Record World := mkWorld {
  ticks : nat;
  console : list Line;
  self : Monitor
}.

(** ** Events handed to the notifier *)

Inductive Severity := info | warning.

Inductive Message :=
| DailyLimitReached (site : string) (total_today daily_limit : Q)
| ExceededDailyLimit (site : string) (total_today daily_limit : Q)
| RunningLow (site : string) (time_remaining current_session_minutes : Q)
| FriendlyReminder (site : string) (current_session_minutes time_remaining : Q).

Inductive Nudge :=
| BLOCK (site : string) (message : Message)
| NUDGE (severity : Severity) (site : string) (message : Message)
        (session_time total_today limit : Q).

Record SiteSummary := mkSiteSummary {
  time_spent : Q;
  limit : Q;
  percentage : Q;
  over_limit : bool
}.

Record Summary := mkSummary {
  summary_date : date;
  sites : gmap string SiteSummary
}.

(** ** State and exceptions *)

Definition M (A : Type) : Type := World → World * Result A.

Definition ret {A} (a : A) : M A := λ w, (w, Ok a).

Definition bind {A B} (c : M A) (k : A → M B) : M B :=
  λ w, match c w with
       | (w', Ok a) => k a w'
       | (w', Raise e) => (w', Raise e)
       end.

Definition raise {A} (e : Exn) : M A := λ w, (w, Raise e).

Notation "x <- c ;; k" := (bind c (λ x, k))
  (at level 100, c at next level, right associativity).
Notation "c ;; k" := (bind c (λ _, k))
  (at level 100, right associativity).

Definition get_self : M Monitor := λ w, (w, Ok (self w)).

Definition modify_self (f : Monitor → Monitor) : M unit :=
  λ w, (mkWorld (ticks w) (console w) (f (self w)), Ok tt).

Definition print (l : Line) : M unit :=
  λ w, (mkWorld (ticks w) (console w ++ [l]) (self w), Ok tt).

Definition set_current_site (v : option string) (m : Monitor) : Monitor :=
  mkMonitor (config m) (tracked_sites m) v (session_start m)
            (last_nudge_time m) (daily_stats m) (last_reset m).
Definition set_session_start (v : option datetime) (m : Monitor) : Monitor :=
  mkMonitor (config m) (tracked_sites m) (current_site m) v
            (last_nudge_time m) (daily_stats m) (last_reset m).
Definition set_last_nudge_time (v : option datetime) (m : Monitor) : Monitor :=
  mkMonitor (config m) (tracked_sites m) (current_site m) (session_start m)
            v (daily_stats m) (last_reset m).
Definition set_daily_stats (v : gmap string Q) (m : Monitor) : Monitor :=
  mkMonitor (config m) (tracked_sites m) (current_site m) (session_start m)
            (last_nudge_time m) v (last_reset m).
Definition set_last_reset (v : date) (m : Monitor) : Monitor :=
  mkMonitor (config m) (tracked_sites m) (current_site m) (session_start m)
            (last_nudge_time m) (daily_stats m) v.

(** [d[k]] on the optional fields of a JSON object *)
Definition item {A} (o : option A) : M A :=
  match o with
  | Some a => ret a
  | None => raise KeyError
  end.

(** The conversion of a number to a float that arithmetic with a float
    operand performs *)
Definition to_float (x : Q) : M Q :=
  if fits_float x then ret x else raise OverflowError.

(** Truth value of an [Optional[str]]: [None] and the empty string are
    false. *)
Definition truthy (o : option string) : bool :=
  match o with
  | Some s => negb (String.eqb s EmptyString)
  | None => false
  end.

(** [self.daily_stats.get(site, 0)] *)
Definition stats_get (stats : gmap string Q) (site : string) : Q :=
  default 0%Q (stats !! site).

Section Monitor.

(** The k-th call of [datetime.now()] returns [clock k]. *)
Variable clock : nat → datetime.

Definition now : M datetime :=
  λ w, (mkWorld (S (ticks w)) (console w) (self w), Ok (clock (ticks w))).

(** [ActivityMonitor(config_path)] *)
Definition new_monitor (file : ConfigFile) : Result World :=
  match snd (load_config file) with
  | Ok (cfg, ts) =>
      Ok (mkWorld 1 []
            (mkMonitor cfg ts None None None ∅ (date_of (clock 0))))
  | Raise e => Raise e
  end.

(** [_end_session] *)
Definition _end_session : M unit :=
  m <- get_self ;;
  match current_site m, session_start m with
  | Some site, Some started =>
      if truthy (Some site) then
        t <- now ;;
        let duration := minutes_between started t in
        let total := (stats_get (daily_stats m) site + duration)%Q in
        modify_self (set_daily_stats (<[site := total]> (daily_stats m))) ;;
        print (Ended site duration) ;;
        print (TotalToday site total) ;;
        modify_self (set_current_site None) ;;
        modify_self (set_session_start None)
      else ret tt
  | _, _ => ret tt
  end.

(** Severity and message of a nudge that passed the gate. *)
Definition select_severity (site : string)
    (daily_limit total_today current_session_minutes : Q)
  : Severity * Message :=
  let time_remaining := (daily_limit - total_today)%Q in
  if Qle_bool time_remaining 0 then
    (warning, ExceededDailyLimit site total_today daily_limit)
  else if Qle_bool time_remaining 10 then
    (warning, RunningLow site time_remaining current_session_minutes)
  else
    (info, FriendlyReminder site current_session_minutes time_remaining).

(** [check_for_nudge] *)
Definition check_for_nudge : M (option Nudge) :=
  m <- get_self ;;
  match current_site m, session_start m with
  | Some site, Some started =>
      if truthy (Some site) then
        site_config <- item (tracked_sites m !! site) ;;
        t <- now ;;
        let current_session_minutes := minutes_between started t in
        let total_today :=
          (stats_get (daily_stats m) site + current_session_minutes)%Q in
        daily_limit <- item (daily_limit site_config) ;;
        nudge_interval <- item (nudge_interval site_config) ;;
        if Qge_bool total_today daily_limit
           && default false (hard_block site_config)
        then ret (Some (BLOCK site (DailyLimitReached site total_today daily_limit)))
        else
          minutes_since_last_nudge <-
            match last_nudge_time m with
            | Some last => t' <- now ;; ret (minutes_between last t')
            | None => ret 999%Q
            end ;;
          if Qge_bool current_session_minutes nudge_interval
             && Qge_bool minutes_since_last_nudge nudge_interval
          then
            t'' <- now ;;
            modify_self (set_last_nudge_time (Some t'')) ;;
            (* [daily_limit - total_today] converts an int [daily_limit] *)
            to_float daily_limit ;;
            let '(severity, message) :=
              select_severity site daily_limit total_today current_session_minutes in
            ret (Some (NUDGE severity site message
                         current_session_minutes total_today daily_limit))
          else ret None
      else ret None
  | _, _ => ret None
  end.

(** The first block of [update_session] (monitor.py lines 114-117):
    reset the daily stats if it is a new day. *)
Definition reset_if_new_day : M unit :=
  t <- now ;;
  m <- get_self ;;
  if bool_decide (date_of t ≠ last_reset m) then
    modify_self (set_daily_stats ∅) ;;
    t' <- now ;;
    modify_self (set_last_reset (date_of t'))
  else ret tt.

(** [update_session], with [detected_site] the value of
    [self.detect_current_site()] *)
Definition update_session (detected_site : option string) : M (option Nudge) :=
  reset_if_new_day ;;
  m <- get_self ;;
  if truthy detected_site && negb (truthy (current_site m)) then
    modify_self (set_current_site detected_site) ;;
    t <- now ;;
    modify_self (set_session_start (Some t)) ;;
    match detected_site with
    | Some site => print (Started site)
    | None => ret tt
    end ;;
    ret None
  else if truthy (current_site m)
          && bool_decide (detected_site ≠ current_site m) then
    _end_session ;;
    (if truthy detected_site then
       modify_self (set_current_site detected_site) ;;
       t <- now ;;
       modify_self (set_session_start (Some t)) ;;
       match detected_site with
       | Some site => print (Switched site)
       | None => ret tt
       end
     else ret tt) ;;
    ret None
  else if truthy (current_site m) then
    check_for_nudge
  else ret None.

(** One entry of the summary: [self.tracked_sites[site]["daily_limit"]]
    raises [KeyError] when a key is missing, and [minutes / limit], which is
    evaluated only for a positive limit, converts an int [limit] to a
    float. *)
Definition summary_entry (ts : gmap string SiteConfig)
    (site : string) (minutes : Q) : Result SiteSummary :=
  match ts !! site with
  | Some sc =>
      match daily_limit sc with
      | Some limit =>
          if Qgt_bool limit 0 && negb (fits_float limit) then Raise OverflowError
          else
            Ok (mkSiteSummary minutes limit
                  (if Qgt_bool limit 0 then (minutes / limit * 100)%Q else 0%Q)
                  (Qgt_bool minutes limit))
      | None => Raise KeyError
      end
  | None => Raise KeyError
  end.

(** The loop of [get_daily_summary] over [self.daily_stats.items()], filling
    [summary["sites"]] *)
Fixpoint summary_sites (ts : gmap string SiteConfig) (items : list (string * Q))
    (sites : gmap string SiteSummary) : Result (gmap string SiteSummary) :=
  match items with
  | [] => Ok sites
  | (site, minutes) :: rest =>
      match summary_entry ts site minutes with
      | Ok entry => summary_sites ts rest (<[site := entry]> sites)
      | Raise e => Raise e
      end
  end.

(** [get_daily_summary] *)
Definition get_daily_summary : M Summary :=
  t <- now ;;
  m <- get_self ;;
  match summary_sites (tracked_sites m) (map_to_list (daily_stats m)) ∅ with
  | Ok sites => ret (mkSummary (date_of t) sites)
  | Raise e => raise e
  end.

(** ** The driver

    [tray_app.monitor_loop] and the [__main__] loop of monitor.py call
    [update_session] once per poll; the tray menu calls
    [get_daily_summary] ([show_stats]) at any time.  [quit_app] and the
    [KeyboardInterrupt] handler take a last summary and stop. *)

Inductive Action :=
| Poll (detected_site : option string)
| ShowStats.

Definition step (a : Action) (w : World) : World :=
  match a with
  | Poll detected_site => fst (update_session detected_site w)
  | ShowStats => fst (get_daily_summary w)
  end.

Definition run (acts : list Action) (w : World) : World :=
  fold_left (λ w a, step a w) acts w.

(** [quit_app] / the [KeyboardInterrupt] handler: the final summary. *)
Definition quit_app : M Summary := get_daily_summary.

End Monitor.

(** ** Explicit forms

    The quantities of the nudge decision and the worlds that the blocks of
    [update_session] produce, written out; the equations that relate them
    to the monadic code are proved below. *)

Section Forms.
Variable clock : nat → datetime.

(** [current_session_minutes], read at the next clock reading of [w] *)
Definition session_minutes (started : datetime) (w : World) : Q :=
  minutes_between started (clock (ticks w)).

(** [total_today] of [check_for_nudge] *)
Definition total_today (site : string) (started : datetime) (w : World) : Q :=
  (stats_get (daily_stats (self w)) site + session_minutes started w)%Q.

(** [minutes_since_last_nudge]; its clock reading follows the one of
    [session_minutes] *)
Definition minutes_since_last_nudge (w : World) : Q :=
  match last_nudge_time (self w) with
  | Some last => minutes_between last (clock (S (ticks w)))
  | None => 999%Q
  end.

(** [total_today >= daily_limit and site_config.get("hard_block", False)] *)
Definition block_condition (sc : SiteConfig) (total limit : Q) : bool :=
  Qge_bool total limit && default false (hard_block sc).

(** The test of the nudge gate: [current_session_minutes >= nudge_interval
    and minutes_since_last_nudge >= nudge_interval] *)
Definition nudge_gate (interval : Q) (started : datetime) (w : World) : bool :=
  Qge_bool (session_minutes started w) interval
  && Qge_bool (minutes_since_last_nudge w) interval.

(** The world after the day check at the head of [update_session] *)
Definition after_reset (w : World) : World :=
  if bool_decide (date_of (clock (ticks w)) ≠ last_reset (self w)) then
    mkWorld (S (S (ticks w))) (console w)
      (set_last_reset (date_of (clock (S (ticks w))))
         (set_daily_stats ∅ (self w)))
  else mkWorld (S (ticks w)) (console w) (self w).

(** The world after [_end_session] has closed the session on [site] *)
Definition after_end (site : string) (started : datetime) (w : World) : World :=
  let duration := minutes_between started (clock (ticks w)) in
  let total := (stats_get (daily_stats (self w)) site + duration)%Q in
  mkWorld (S (ticks w))
    (console w ++ [Ended site duration; TotalToday site total])
    (set_session_start None (set_current_site None
       (set_daily_stats (<[site := total]> (daily_stats (self w))) (self w)))).

(** The world after a session on [site] has been opened *)
Definition after_open (line : string → Line) (site : string) (w : World) : World :=
  mkWorld (S (ticks w)) (console w ++ [line site])
    (set_session_start (Some (clock (ticks w)))
       (set_current_site (Some site) (self w))).

(** The world after a nudge has passed the gate *)
Definition after_nudge (w : World) : World :=
  let n := match last_nudge_time (self w) with
           | Some _ => S (S (ticks w))
           | None => S (ticks w)
           end in
  mkWorld (S n) (console w) (set_last_nudge_time (Some (clock n)) (self w)).

End Forms.

(** ** Specification-side vocabulary *)

(** The event a call hands to the notifier, if any. *)
Definition emitted (r : World * Result (option Nudge)) : option Nudge :=
  match snd r with
  | Ok o => o
  | Raise _ => None
  end.

(** The result of a call that returns. *)
Definition value {A} (r : Result A) : option A :=
  match r with
  | Ok a => Some a
  | Raise _ => None
  end.

Definition is_NUDGE (o : option Nudge) : bool :=
  match o with
  | Some (NUDGE _ _ _ _ _ _) => true
  | _ => false
  end.

Definition is_BLOCK (o : option Nudge) : bool :=
  match o with
  | Some (BLOCK _ _) => true
  | _ => false
  end.

(** The clock never runs backwards. *)
Definition monotone (clock : nat → datetime) : Prop :=
  ∀ n, clock n ≤ clock (S n).

(** Minutes of the sessions on [site] that the console reports as ended. *)
Fixpoint closed_minutes (site : string) (lines : list Line) : Q :=
  match lines with
  | [] => 0%Q
  | Ended s d :: rest =>
      ((if String.eqb s site then d else 0) + closed_minutes site rest)%Q
  | _ :: rest => closed_minutes site rest
  end.

(** Replays the session lines of the console: [bracket o lines] is the
    session open after [lines] when [o] was open before, provided every
    start happens with no session open and every end closes the session
    that is open. *)
Fixpoint bracket (o : option string) (lines : list Line)
  : option (option string) :=
  match lines with
  | [] => Some o
  | Started s :: rest | Switched s :: rest =>
      match o with
      | None => bracket (Some s) rest
      | Some _ => None
      end
  | Ended s _ :: rest =>
      if bool_decide (o = Some s) then bracket None rest else None
  | TotalToday _ _ :: rest => bracket o rest
  end.

Definition opens (l : Line) : bool :=
  match l with
  | Started _ | Switched _ => true
  | _ => false
  end.

Definition ends (l : Line) : bool :=
  match l with
  | Ended _ _ => true
  | _ => false
  end.

Definition opened_sessions (lines : list Line) : nat :=
  length (List.filter opens lines).

Definition ended_sessions (lines : list Line) : nat :=
  length (List.filter ends lines).

(** [current_site] and [session_start] are set together. *)
Definition paired (m : Monitor) : Prop :=
  current_site m = None ↔ session_start m = None.

(** The site configuration invariant of the data model. *)
Definition valid_site (sc : SiteConfig) : Prop :=
  match daily_limit sc, nudge_interval sc with
  | Some l, Some i => (0 < l)%Q ∧ (0 < i)%Q
  | _, _ => False
  end.

(** At most one session is open, it is the one the console says, and both
    session fields are set for it. *)
Definition session_inv (w : World) : Prop :=
  paired (self w) ∧
  (current_site (self w) = None ∨ truthy (current_site (self w)) = true) ∧
  bracket None (console w) = Some (current_site (self w)).

(** Every stored instant is an earlier reading of the clock. *)
Definition past_inv (clock : nat → datetime) (w : World) : Prop :=
  (∀ t, session_start (self w) = Some t → ∃ k, (k < ticks w)%nat ∧ t = clock k) ∧
  (∀ t, last_nudge_time (self w) = Some t → ∃ k, (k < ticks w)%nat ∧ t = clock k).

Definition stats_nonneg (stats : gmap string Q) : Prop :=
  ∀ site q, stats !! site = Some q → (0 <= q)%Q.

Definition durations_nonneg (lines : list Line) : Prop :=
  ∀ site d, In (Ended site d) lines → (0 <= d)%Q.

(** Does this action observe a date other than the accumulator's? *)
Definition rollover_observed (clock : nat → datetime) (a : Action) (w : World) : bool :=
  match a with
  | Poll _ => bool_decide (date_of (clock (ticks w)) ≠ last_reset (self w))
  | ShowStats => false
  end.

(** [run], remembering how long the console was at the last rollover. *)
Fixpoint run_marked (clock : nat → datetime) (acts : list Action)
    (w : World) (mark : nat) : World * nat :=
  match acts with
  | [] => (w, mark)
  | a :: rest =>
      run_marked clock rest (step clock a w)
        (if rollover_observed clock a w then length (console w) else mark)
  end.

(** The sessions closed since the last rollover account for the totals. *)
Definition ledger_inv (w : World) (mark : nat) : Prop :=
  (mark ≤ length (console w))%nat ∧
  ∀ site, (stats_get (daily_stats (self w)) site ==
           closed_minutes site (drop mark (console w)))%Q.

Definition event_total_today (ev : Nudge) : option Q :=
  match ev with
  | NUDGE _ _ _ _ total _ => Some total
  | BLOCK _ (DailyLimitReached _ total _) => Some total
  | BLOCK _ _ => None
  end.

Definition open_count (o : option string) : nat :=
  match o with
  | Some _ => 1
  | None => 0
  end.

(** ** Scenarios *)

Definition minute : Z := 60000000.

(** A clock given by its first readings; later calls repeat the last one. *)
Definition clock_of (readings : list datetime) : nat → datetime :=
  λ n, List.nth n readings (List.last readings 0).

(** A clock that advances ten minutes between two readings. *)
Definition ten_minute_clock : nat → datetime :=
  λ n, Z.of_nat n * (10 * minute).

(** The monitor right after [ActivityMonitor()] with the given sites. *)
Definition fresh_world (clock : nat → datetime) (cfg : Config)
    (ts : gmap string SiteConfig) : World :=
  mkWorld 1 [] (mkMonitor cfg ts None None None ∅ (date_of (clock 0%nat))).

(** The events of a sequence of polls. *)
Fixpoint poll_events (clock : nat → datetime) (ds : list (option string))
    (w : World) : list (option Nudge) :=
  match ds with
  | [] => []
  | d :: rest =>
      emitted (update_session clock d w)
        :: poll_events clock rest (fst (update_session clock d w))
  end.

Definition youtube : string := "youtube.com".
Definition reddit : string := "reddit.com".

(** One site with a nudge interval above 999 minutes. *)
Definition long_interval_sites : gmap string SiteConfig :=
  {[ youtube := mkSiteConfig (Some 5000%Q) (Some 1000%Q) (Some false) ]}.
Definition long_interval_config : Config :=
  mkConfig (Some long_interval_sites) None.
(** The session opens at 0:00 and is polled again 1000 minutes later. *)
Definition long_dwell_clock : nat → datetime :=
  clock_of [0; 0; 0; 1000 * minute; 1000 * minute].

(** The same site with a nudge interval of 999 minutes. *)
Definition sentinel_interval_sites : gmap string SiteConfig :=
  {[ youtube := mkSiteConfig (Some 5000%Q) (Some 999%Q) (Some false) ]}.
Definition sentinel_interval_config : Config :=
  mkConfig (Some sentinel_interval_sites) None.

(** The long interval on one site, a short one on another. *)
Definition two_interval_sites : gmap string SiteConfig :=
  <[ youtube := mkSiteConfig (Some 5000%Q) (Some 1000%Q) (Some false) ]>
    {[ reddit := mkSiteConfig (Some 30%Q) (Some 10%Q) (Some false) ]}.
Definition two_interval_config : Config :=
  mkConfig (Some two_interval_sites) None.
(** Ten minutes on the second site, with a nudge at 0:10, then a session on
    the first site from 0:10, polled 1000 minutes later. *)
Definition after_nudge_clock : nat → datetime :=
  clock_of (map (λ k, k * minute)
    [0; 0; 0; 10; 10; 10; 10; 10; 10; 1010; 1010; 1010; 1010]).

(** One site with [hard_block] set. *)
Definition strict_sites : gmap string SiteConfig :=
  {[ youtube := mkSiteConfig (Some 60%Q) (Some 15%Q) (Some true) ]}.
Definition strict_config : Config := mkConfig (Some strict_sites) None.

(** The same site without [nudge_interval]. *)
Definition no_interval_sites : gmap string SiteConfig :=
  {[ youtube := mkSiteConfig (Some 60%Q) None (Some true) ]}.
Definition no_interval_config : Config := mkConfig (Some no_interval_sites) None.

(** A site whose daily limit is an int beyond the range of a double. *)
Definition huge_limit : Q := Eval vm_compute in inject_Z (2 ^ 1024).
Definition huge_limit_sites : gmap string SiteConfig :=
  {[ youtube := mkSiteConfig (Some huge_limit) (Some 15%Q) (Some false) ]}.
Definition huge_limit_config : Config := mkConfig (Some huge_limit_sites) None.

(** A site with a zero daily limit and a negative nudge interval. *)
Definition bad_sites : gmap string SiteConfig :=
  {[ youtube := mkSiteConfig (Some 0%Q) (Some (-5)%Q) (Some false) ]}.
Definition bad_config : Config := mkConfig (Some bad_sites) None.

(** The clock jumps back ten minutes while a session is open. *)
Definition backward_clock : nat → datetime :=
  clock_of [0; 10 * minute; 10 * minute; 0; 0].

(** Day 0: a session from 23:29 to 23:59 and an idle poll at 23:59:59.
    The next reading, half a second after midnight, is taken by a summary
    request that arrives before the next poll. *)
Definition midnight_clock : nat → datetime :=
  clock_of [0; 1409 * minute; 1409 * minute; 1439 * minute; 1439 * minute;
            1439 * minute + 59000000; 1440 * minute + 500000].

(** A closed session of ten minutes, then a session opened at 0:20 and
    still open when the summary is taken at 0:50. *)
Definition live_clock : nat → datetime :=
  clock_of [0; 0; 0; 10 * minute; 10 * minute; 20 * minute; 20 * minute;
            50 * minute].

(** Scenario A of the specification: polls at every minute from 0 to 30,
    all the readings of a poll showing the same minute. *)
Definition scenario_A_clock : nat → datetime :=
  clock_of (map (λ k, k * minute)
    ([0; 0; 0]
     ++ flat_map (λ k, [k; k]) (seqZ 1 14)
     ++ [15; 15; 15]
     ++ flat_map (λ k, [k; k; k]) (seqZ 16 14)
     ++ [30; 30; 30; 30])).

(** Scenario B: 55 minutes in a first session, a new session opened at
    0:55 and polled at 1:10 and 1:11. *)
Definition scenario_B_clock : nat → datetime :=
  clock_of (map (λ k, k * minute)
    [0; 0; 0; 55; 55; 55; 55; 70; 70; 70; 71; 71; 71]).

(** ** Site detection *)

(** [needle in hay] on strings *)
Fixpoint str_in (needle hay : string) : bool :=
  String.prefix needle hay ||
  match hay with
  | EmptyString => false
  | String _ rest => str_in needle rest
  end.

(** [s.replace('.com', '')]: one pass from the left over occurrences that
    do not overlap; [skip] counts the characters of the occurrence being
    dropped that are still ahead. *)
Fixpoint remove_dot_com (skip : nat) (s : string) : string :=
  match s with
  | EmptyString => EmptyString
  | String c rest =>
      match skip with
      | S k => remove_dot_com k rest
      | O =>
          if String.prefix ".com" s then remove_dot_com 3 rest
          else String c (remove_dot_com 0 rest)
      end
  end.

Definition replace_dot_com (s : string) : string := remove_dot_com 0 s.

(** The test of the loop of [detect_current_site] *)
Definition site_matches (window_title site : string) : bool :=
  str_in (replace_dot_com site) window_title || str_in site window_title.

(** What the probe of the foreground window gives. *)
Inductive Probe :=
| NoWin32
| ProbeRaises
| Foreground (lowered_title : string).

(** [self.get_active_window_title().lower()]: the empty string when
    win32gui is missing or the probe raises, else the title of the
    foreground window, lower-cased. *)
Definition window_title (p : Probe) : string :=
  match p with
  | Foreground lowered_title => lowered_title
  | _ => EmptyString
  end.

(** [detect_current_site]; [keys] is [self.tracked_sites.keys()], in the
    order of the dict. *)
Fixpoint detect_current_site (keys : list string) (window_title : string)
  : option string :=
  match keys with
  | [] => None
  | site :: rest =>
      if site_matches window_title site then Some site
      else detect_current_site rest window_title
  end.

(** ** Polls with detection *)

(** What the driver feeds the monitor: a poll, with what the window probe
    gives at that moment, or a click on the Show Stats item of the tray. *)
Inductive Input :=
| Window (p : Probe)
| StatsClick.

Definition to_action (keys : list string) (i : Input) : Action :=
  match i with
  | Window p => Poll (detect_current_site keys (window_title p))
  | StatsClick => ShowStats
  end.

(** Every tracked site has the two keys [check_for_nudge] reads. *)
Definition complete_config (ts : gmap string SiteConfig) : Prop :=
  ∀ site sc, ts !! site = Some sc →
    is_Some (daily_limit sc) ∧ is_Some (nudge_interval sc).

(** Every daily limit converts to a float. *)
Definition limits_convert (ts : gmap string SiteConfig) : Prop :=
  ∀ site sc L, ts !! site = Some sc → daily_limit sc = Some L →
    fits_float L = true.

(** The summary entry of [site] cannot be computed: its configuration or
    its [daily_limit] is missing, or the limit is positive and does not
    convert to a float. *)
Definition entry_fails (ts : gmap string SiteConfig) (site : string) : Prop :=
  match ts !! site with
  | Some sc =>
      match daily_limit sc with
      | Some l => (0 < l)%Q ∧ fits_float l = false
      | None => True
      end
  | None => True
  end.

(** The session and accumulator only mention configured sites. *)
Definition tracked_inv (w : World) : Prop :=
  (∀ site, current_site (self w) = Some site →
           is_Some (tracked_sites (self w) !! site)) ∧
  (∀ site, is_Some (daily_stats (self w) !! site) →
           is_Some (tracked_sites (self w) !! site)).

(** Nothing has been tracked. *)
Definition idle (w : World) : Prop :=
  current_site (self w) = None ∧ session_start (self w) = None ∧
  daily_stats (self w) = ∅ ∧ console w = [].

(** ** The notifier (notifier.py)

    The text of a notification is kept as the data it is built from: the
    message of a nudge, or the lines of the daily summary.  Whether plyer
    displays a notification or raises is an input of each call. *)

(** One line of the summary message: the status mark, the minutes and the
    limit of a site. *)
Record SummaryLine := mkSummaryLine {
  over : bool;
  line_time_spent : Q;
  line_limit : Q
}.

Inductive Body :=
| NudgeText (m : Message)
| NoTimeTracked
| ScreenTime (lines : gmap string SummaryLine)
| Text (s : string).

(** The arguments of [notification.notify] *)
Record Notification := mkNotification {
  title : string;
  message : Body;
  app_name : string;
  timeout : Z;
  app_icon : option string
}.

(** The fields of a [Notifier] *)
Record Notifier := mkNotifier {
  notifier_app_name : string;
  icon_path : option string
}.

(** [Notifier()] *)
Definition default_notifier : Notifier := mkNotifier "DoomScrollDoctor" None.

(** What the user sees: the notifications displayed, and those echoed on
    the console because plyer raised. *)
Record Desk := mkDesk {
  shown : list Notification;
  echoed : list Notification
}.

(** [send_notification] *)
Definition send_notification (nt : Notifier) (plyer_ok : bool)
    (title : string) (message : Body) (timeout : Z) (desk : Desk) : Desk :=
  let n := mkNotification title message (notifier_app_name nt) timeout (icon_path nt) in
  if plyer_ok then mkDesk (shown desk ++ [n]) (echoed desk)
  else mkDesk (shown desk) (echoed desk ++ [n]).

(** [send_nudge] *)
Definition send_nudge (nt : Notifier) (plyer_ok : bool) (nudge_data : Nudge)
    (desk : Desk) : Desk :=
  match nudge_data with
  | BLOCK _ m =>
      send_notification nt plyer_ok "⛔ DoomScrollDoctor - BLOCKED" (NudgeText m) 15 desk
  | NUDGE severity _ m _ _ _ =>
      match severity with
      | warning =>
          send_notification nt plyer_ok "⚠️ DoomScrollDoctor - Warning!" (NudgeText m) 15 desk
      | info =>
          send_notification nt plyer_ok "👋 DoomScrollDoctor - Friendly Nudge"
            (NudgeText m) 10 desk
      end
  end.

(** The message of [send_daily_summary] *)
Definition summary_body (summary : Summary) : Body :=
  if bool_decide (sites summary = ∅) then NoTimeTracked
  else ScreenTime
         ((λ stats, mkSummaryLine (over_limit stats) (time_spent stats) (limit stats))
            <$> sites summary).

(** [send_daily_summary] *)
Definition send_daily_summary (nt : Notifier) (plyer_ok : bool)
    (summary : Summary) (desk : Desk) : Desk :=
  send_notification nt plyer_ok "📊 DoomScrollDoctor - Daily Summary"
    (summary_body summary) 20 desk.

(** ** The tray application (tray_app.py) *)

Record Tray := mkTray {
  running : bool;
  icon_running : bool;
  desk : Desk;
  world : World
}.

(** What happens to the application: a turn of the polling loop, or a
    click on a menu item; [plyer_ok] tells whether the notification of that
    step, if any, is displayed. *)
Inductive TrayInput :=
| LoopTurn (p : Probe) (plyer_ok : bool)
| ShowStatsClick (plyer_ok : bool)
| QuitClick (plyer_ok : bool).

Section Tray.
Variable clock : nat → datetime.
Variable keys : list string.

(** One turn of the loop of [monitor_loop]; the sleep of 2 seconds, or of
    5 after an exception, only moves the clock. *)
Definition monitor_loop_turn (p : Probe) (plyer_ok : bool) (t : Tray) : Tray :=
  match update_session clock (detect_current_site keys (window_title p)) (world t) with
  | (w, Ok (Some nudge)) =>
      mkTray (running t) (icon_running t)
        (send_nudge default_notifier plyer_ok nudge (desk t)) w
  | (w, Ok None) => mkTray (running t) (icon_running t) (desk t) w
  | (w, Raise _) => mkTray (running t) (icon_running t) (desk t) w
  end.

(** [show_stats] *)
Definition show_stats (plyer_ok : bool) (t : Tray) : Tray * Result unit :=
  match get_daily_summary clock (world t) with
  | (w, Ok summary) =>
      (mkTray (running t) (icon_running t)
         (send_daily_summary default_notifier plyer_ok summary (desk t)) w,
       Ok tt)
  | (w, Raise e) => (mkTray (running t) (icon_running t) (desk t) w, Raise e)
  end.

(** [DoomScrollDoctorTray.quit_app], with the notification and the flags *)
Definition tray_quit_app (plyer_ok : bool) (t : Tray) : Tray * Result unit :=
  match get_daily_summary clock (world t) with
  | (w, Ok summary) =>
      (mkTray false false
         (send_daily_summary default_notifier plyer_ok summary (desk t)) w,
       Ok tt)
  | (w, Raise e) => (mkTray (running t) (icon_running t) (desk t) w, Raise e)
  end.

(** The application from [run] on: the loop turns while [running] holds,
    the menu answers while the icon runs. *)
Definition tray_step (i : TrayInput) (t : Tray) : Tray :=
  match i with
  | LoopTurn p plyer_ok =>
      if running t && icon_running t then monitor_loop_turn p plyer_ok t else t
  | ShowStatsClick plyer_ok =>
      if icon_running t then fst (show_stats plyer_ok t) else t
  | QuitClick plyer_ok =>
      if icon_running t then fst (tray_quit_app plyer_ok t) else t
  end.

Definition tray_run (inputs : list TrayInput) (t : Tray) : Tray :=
  fold_left (λ t i, tray_step i t) inputs t.

(** The part of [run] before the icon takes over: the loop is started and
    the startup notification sent. *)
Definition tray_start (plyer_ok : bool) (w : World) : Tray :=
  mkTray true true
    (send_notification default_notifier plyer_ok "🩺 DoomScrollDoctor Started"
       (Text "Now monitoring your activity.
Right-click the tray icon to see stats or quit.") 5 (mkDesk [] []))
    w.

(** The monitor's view of a tray input. *)
Definition tray_action (i : TrayInput) : Action :=
  match i with
  | LoopTurn p _ => Poll (detect_current_site keys (window_title p))
  | ShowStatsClick _ | QuitClick _ => ShowStats
  end.

End Tray.

Definition is_quit (i : TrayInput) : bool :=
  match i with
  | QuitClick _ => true
  | _ => false
  end.

(** All the notifications handed to the notifier, displayed or echoed. *)
Definition notified (d : Desk) : nat := (length (shown d) + length (echoed d))%nat.

(** [nudge_data["message"]] *)
Definition event_message (ev : Nudge) : Message :=
  match ev with
  | BLOCK _ m => m
  | NUDGE _ _ m _ _ _ => m
  end.

(** The notification is appended to the displayed ones when plyer works
    and to the echoed ones when it raises; the other list is untouched. *)
Definition recorded (plyer_ok : bool) (before after : Desk) (n : Notification) : Prop :=
  if plyer_ok
  then shown after = shown before ++ [n] ∧ echoed after = echoed before
  else echoed after = echoed before ++ [n] ∧ shown after = shown before.

(** ** The activity log (logger.py)

    A log file is absent or holds text, which the readers take line by
    line.  For them a line is the value that [json.loads] returns for it,
    or a line that [json.loads] rejects.  Whether the file can be opened is
    an input of each call. *)

Inductive JsonLine (A : Type) :=
| Parsed (a : A)
| Malformed.
Arguments Parsed {A} a.
Arguments Malformed {A}.

(** [get_sessions_count] *)
Definition get_sessions_count {A} (io_ok : bool)
    (file : option (list (JsonLine A))) : Z :=
  match file with
  | None => 0
  | Some lines => if io_ok then Z.of_nat (length lines) else 0
  end.

(** The records read before the loop of [get_recent_sessions] ends, at the
    end of the file or at the first line that [json.loads] rejects. *)
Fixpoint read_sessions {A} (lines : list (JsonLine A)) : list A :=
  match lines with
  | Parsed a :: rest => a :: read_sessions rest
  | _ => []
  end.

(** [l[start:]] *)
Definition slice_from {A} (start : Z) (l : list A) : list A :=
  let n := Z.of_nat (length l) in
  let i := if start <? 0 then Z.max 0 (n + start) else Z.min start n in
  drop (Z.to_nat i) l.

(** [get_recent_sessions] *)
Definition get_recent_sessions {A} (io_ok : bool)
    (file : option (list (JsonLine A))) (limit : Z) : list A :=
  match file with
  | None => []
  | Some lines =>
      let sessions := if io_ok then read_sessions lines else [] in
      match sessions with
      | [] => []
      | _ => slice_from (- limit) sessions
      end
  end.

(** The text of a log file: the lines that end with a newline, without
    it, and the characters after the last newline ([rest], empty when the
    file is empty or ends with a newline). *)
Record LogFile := mkLogFile {
  terminated : list string;
  rest : string
}.

Definition empty_log : LogFile := mkLogFile [] EmptyString.

(** The lines that [for line in f] yields: an unterminated last line is a
    line too. *)
Definition file_lines (f : LogFile) : list string :=
  terminated f ++ (if String.eqb (rest f) EmptyString then [] else [rest f]).

Section Log.

(** The records, [json.dumps] on a record ([None] when it raises; the text
    it returns holds no newline) and [json.loads] on the text of a line
    ([None] when it raises). *)
Variable A : Type.
Variable dumps : A → option string.
Variable loads : string → option A.

Definition json_line (line : string) : JsonLine A :=
  match loads line with
  | Some a => Parsed a
  | None => Malformed
  end.

(** The file as its readers see it *)
Definition log_view (f : LogFile) : list (JsonLine A) :=
  json_line <$> file_lines f.

(** [_append_jsonl]: [open(filepath, 'a')] creates a missing file, then
    [json.dumps(data) + '\n'] is written at the end of the text, after the
    unterminated last line if there is one.  An exception of [open] or of
    [json.dumps] is caught and reported on the console; the write itself
    is taken to succeed. *)
Definition _append_jsonl (io_ok : bool) (file : option LogFile) (data : A)
  : option LogFile :=
  if io_ok then
    let f := default empty_log file in
    match dumps data with
    | Some text =>
        Some (mkLogFile (terminated f ++ [String.append (rest f) text]) EmptyString)
    | None => Some f
    end
  else file.

End Log.
Arguments json_line {A} loads line.
Arguments log_view {A} loads f.
Arguments _append_jsonl {A} dumps io_ok file data.

(** The texts of the lines of a small log of numbers, and what
    [json.loads] and [json.dumps] make of them. *)
Definition loads_number (line : string) : option Z :=
  if String.eqb line "1" then Some 1
  else if String.eqb line "2" then Some 2
  else if String.eqb line "3" then Some 3
  else if String.eqb line "23" then Some 23
  else None.
Definition dumps_number (n : Z) : option string :=
  if n =? 3 then Some "3" else None.

(** The keys of the default configuration, in the order of the dict. *)
Definition default_keys : list string :=
  ["youtube.com"; "reddit.com"; "twitter.com"; "facebook.com"].

(** A desktop on which nothing has been shown yet. *)
Definition empty_desk : Desk := mkDesk [] [].

(** ** Arithmetic of durations *)

Lemma Qge_bool_iff (x y : Q) : Qge_bool x y = true ↔ (y <= x)%Q.
Proof. unfold Qge_bool. apply Qle_bool_iff. Qed.

Lemma Qge_bool_false (x y : Q) : Qge_bool x y = false ↔ (x < y)%Q.
Proof.
  unfold Qge_bool. split.
  - intros H. apply Qnot_le_lt. intros Hle.
    apply Qle_bool_iff in Hle. congruence.
  - intros H. destruct (Qle_bool y x) eqn:E; [|done].
    apply Qle_bool_iff in E. lra.
Qed.

Lemma Qgt_bool_iff (x y : Q) : Qgt_bool x y = true ↔ (y < x)%Q.
Proof.
  unfold Qgt_bool. rewrite negb_true_iff. apply (Qge_bool_false y x).
Qed.

Lemma Qdiv_le_mono (x y c : Q) : (0 < c)%Q → (x <= y)%Q → (x / c <= y / c)%Q.
Proof.
  intros Hc Hxy. unfold Qdiv. apply Qmult_le_compat_r; [done|].
  apply Qlt_le_weak, Qinv_lt_0_compat, Hc.
Qed.

Lemma Qdiv_lt_mono (x y c : Q) : (0 < c)%Q → (x < y)%Q → (x / c < y / c)%Q.
Proof.
  intros Hc Hxy. unfold Qdiv. apply Qmult_lt_compat_r; [|done].
  apply Qinv_lt_0_compat, Hc.
Qed.

Lemma total_seconds_mono (d d' : Z) :
  d ≤ d' → (total_seconds d <= total_seconds d')%Q.
Proof.
  intros H. unfold total_seconds. apply Qdiv_le_mono; [done|].
  by rewrite <- Zle_Qle.
Qed.

Lemma minutes_between_mono (a a' b b' : datetime) :
  a' ≤ a → b ≤ b' → (minutes_between a b <= minutes_between a' b')%Q.
Proof.
  intros Ha Hb. unfold minutes_between. apply Qdiv_le_mono; [done|].
  apply total_seconds_mono. lia.
Qed.

Lemma minutes_between_nonneg (a b : datetime) :
  a ≤ b → (0 <= minutes_between a b)%Q.
Proof.
  intros H. unfold minutes_between, total_seconds.
  apply Qle_trans with (inject_Z 0 / 1000000 / 60)%Q; [by vm_compute|].
  do 2 (apply Qdiv_le_mono; [done|]).
  rewrite <- Zle_Qle. lia.
Qed.

Lemma minutes_between_neg (a b : datetime) :
  b < a → (minutes_between a b < 0)%Q.
Proof.
  intros H. unfold minutes_between, total_seconds.
  apply Qlt_le_trans with (inject_Z 0 / 1000000 / 60)%Q; [|by vm_compute].
  do 2 (apply Qdiv_lt_mono; [done|]).
  rewrite <- Zlt_Qlt. lia.
Qed.

Lemma value_Some {A} (r : Result A) (a : A) : value r = Some a ↔ r = Ok a.
Proof. destruct r; simpl; split; congruence. Qed.

Lemma fits_float_iff (x : Q) : fits_float x = true ↔ (Qabs x < float_bound)%Q.
Proof.
  unfold fits_float. rewrite negb_true_iff. apply (Qge_bool_false (Qabs x)).
Qed.

Lemma monotone_le (clock : nat → datetime) (i j : nat) :
  monotone clock → (i ≤ j)%nat → clock i ≤ clock j.
Proof.
  intros Hm Hij. induction Hij as [|j _ IH]; [lia|].
  specialize (Hm j). lia.
Qed.

(** ** The operations, equation by equation *)

Section Facts.
Variable clock : nat → datetime.

Ltac unfold_monitor :=
  unfold update_session, reset_if_new_day, _end_session, check_for_nudge,
    get_daily_summary, item, to_float, now, get_self, modify_self, print,
    bind, ret, raise.

Lemma reset_if_new_day_eq w :
  reset_if_new_day clock w = (after_reset clock w, Ok tt).
Proof.
  unfold_monitor. unfold after_reset. simpl. by case_bool_decide.
Qed.

Lemma _end_session_eq site started w :
  current_site (self w) = Some site → truthy (Some site) = true →
  session_start (self w) = Some started →
  _end_session clock w = (after_end clock site started w, Ok tt).
Proof.
  intros Hc Ht Hs. unfold_monitor. simpl in *. rewrite Hc, Hs, Ht. simpl.
  unfold after_end. simpl. by rewrite <- app_assoc.
Qed.

Lemma _end_session_skip w :
  truthy (current_site (self w)) = false ∨ session_start (self w) = None →
  _end_session clock w = (w, Ok tt).
Proof.
  intros H. unfold_monitor. simpl in *.
  destruct (current_site (self w)) as [site|] eqn:Hc; [|done].
  destruct (session_start (self w)) eqn:Hs; [|done].
  destruct H as [H|H]; [|done]. simpl in H. by rewrite H.
Qed.

Lemma check_for_nudge_eq w site started sc L I :
  current_site (self w) = Some site → truthy (Some site) = true →
  session_start (self w) = Some started →
  tracked_sites (self w) !! site = Some sc →
  daily_limit sc = Some L → nudge_interval sc = Some I →
  check_for_nudge clock w =
    let csm := session_minutes clock started w in
    let total := total_today clock site started w in
    if block_condition sc total L then
      (mkWorld (S (ticks w)) (console w) (self w),
       Ok (Some (BLOCK site (DailyLimitReached site total L))))
    else if nudge_gate clock I started w then
      (after_nudge clock w,
       if fits_float L then
         Ok (Some (NUDGE (fst (select_severity site L total csm)) site
                     (snd (select_severity site L total csm)) csm total L))
       else Raise OverflowError)
    else
      (mkWorld (match last_nudge_time (self w) with
                | Some _ => S (S (ticks w)) | None => S (ticks w) end)
         (console w) (self w), Ok None).
Proof.
  intros Hc Ht Hs Hsc HL HI. unfold_monitor. simpl in *.
  rewrite Hc, Hs, Ht, Hsc. simpl. rewrite HL, HI. simpl.
  unfold block_condition, nudge_gate, total_today, session_minutes,
    minutes_since_last_nudge, after_nudge.
  simpl.
  destruct (_ && default false _); [done|].
  destruct (last_nudge_time (self w)) eqn:Hl; simpl;
    destruct (_ && _); try done; destruct (fits_float L); simpl; try done;
    by destruct (select_severity _ _ _ _).
Qed.

Lemma update_session_eq d w :
  update_session clock d w =
    let w1 := after_reset clock w in
    let cs := current_site (self w) in
    if truthy d && negb (truthy cs) then
      match d with
      | Some site => (after_open clock Started site w1, Ok None)
      | None => (w1, Ok None)
      end
    else if truthy cs && bool_decide (d ≠ cs) then
      let w2 := fst (_end_session clock w1) in
      match d with
      | Some site =>
          if truthy d then (after_open clock Switched site w2, Ok None)
          else (w2, Ok None)
      | None => (w2, Ok None)
      end
    else if truthy cs then check_for_nudge clock w1
    else (w1, Ok None).
Proof.
  unfold update_session. unfold bind at 1. rewrite reset_if_new_day_eq.
  assert (Hcs : current_site (self (after_reset clock w)) = current_site (self w)).
  { unfold after_reset. by case_bool_decide. }
  unfold bind at 1, get_self at 1. simpl. rewrite Hcs.
  destruct (truthy d && negb (truthy (current_site (self w)))) eqn:E1.
  { destruct d as [site|]; [|done]. reflexivity. }
  destruct (truthy (current_site (self w)) && bool_decide (d ≠ current_site (self w))) eqn:E2.
  { unfold bind at 1.
    assert (He : ∃ w2, _end_session clock (after_reset clock w) = (w2, Ok tt)).
    { unfold_monitor. repeat case_match; eauto. }
    destruct He as [w2 He]. rewrite He. simpl.
    destruct d as [site|]; simpl; [|done].
    destruct (negb (String.eqb site EmptyString)); reflexivity. }
  destruct (truthy (current_site (self w))); reflexivity.
Qed.


(** *** What each operation leaves alone *)

Lemma after_reset_frame w :
  let w1 := after_reset clock w in
  console w1 = console w ∧ current_site (self w1) = current_site (self w) ∧
  session_start (self w1) = session_start (self w) ∧
  last_nudge_time (self w1) = last_nudge_time (self w) ∧
  tracked_sites (self w1) = tracked_sites (self w) ∧
  (ticks w < ticks w1)%nat.
Proof. unfold after_reset. case_bool_decide; simpl; repeat split; lia. Qed.

Lemma check_for_nudge_frame w :
  let w' := fst (check_for_nudge clock w) in
  console w' = console w ∧ current_site (self w') = current_site (self w) ∧
  session_start (self w') = session_start (self w) ∧
  daily_stats (self w') = daily_stats (self w) ∧
  last_reset (self w') = last_reset (self w) ∧
  tracked_sites (self w') = tracked_sites (self w) ∧
  (ticks w ≤ ticks w')%nat ∧
  (last_nudge_time (self w') = last_nudge_time (self w) ∨
   (is_NUDGE (emitted (check_for_nudge clock w)) = true ∨
    snd (check_for_nudge clock w) = Raise OverflowError) ∧
   ∃ k, (ticks w < k < ticks w')%nat ∧
        last_nudge_time (self w') = Some (clock k)).
Proof.
  unfold_monitor. unfold emitted. simpl.
  repeat (case_match; simpl in *; simplify_eq); simpl;
    repeat split; try lia; try done; try (by left).
  all: right; split; [first [by left|by right]|];
    eexists; split; [|reflexivity]; lia.
Qed.

Lemma get_daily_summary_frame w :
  let w' := fst (get_daily_summary clock w) in
  self w' = self w ∧ console w' = console w ∧ ticks w' = S (ticks w).
Proof. unfold_monitor. simpl. by destruct (summary_sites _ _ _). Qed.

(** *** The session invariant *)

Lemma bracket_app (o : option string) (a b : list Line) :
  bracket o (a ++ b) =
  match bracket o a with
  | Some o' => bracket o' b
  | None => None
  end.
Proof.
  revert o. induction a as [|l a IH]; intros o; [done|].
  destruct l; simpl; try done.
  - by destruct o.
  - by destruct o.
  - by case_bool_decide.
Qed.

Lemma update_session_session_inv d w :
  session_inv w → session_inv (fst (update_session clock d w)).
Proof.
  intros (Hp & Ht & Hb). rewrite update_session_eq. simpl.
  destruct (after_reset_frame w) as (Hc1 & Hs1 & Hss1 & _ & _ & _).
  unfold paired in *.
  destruct (truthy d && negb (truthy (current_site (self w)))) eqn:E1.
  { apply andb_true_iff in E1 as [Hd Hn]. apply negb_true_iff in Hn.
    destruct d as [site|]; [|done]. simpl fst.
    destruct Ht as [Ht|Ht]; [|congruence].
    unfold session_inv, paired, after_open. simpl.
    rewrite bracket_app, Hc1, Hb, Ht. simpl. repeat split; try done; by right. }
  destruct (truthy (current_site (self w))) eqn:Etr; simpl.
  2:{ destruct Ht as [Ht|Ht]; [|congruence].
      unfold session_inv, paired. rewrite Hc1, Hs1, Hss1. repeat split; try tauto; by left. }
  destruct (current_site (self w)) as [s|] eqn:Hcs; [|done].
  destruct (session_start (self w)) as [t0|] eqn:Hst;
    [|exfalso; destruct Hp as [_ Hp]; by specialize (Hp eq_refl)].
  case_bool_decide as Hne; simpl.
  - rewrite (_end_session_eq s t0) by congruence. simpl.
    assert (Hend : session_inv (after_end clock s t0 (after_reset clock w))).
    { unfold session_inv, paired, after_end. simpl.
      rewrite bracket_app, Hc1, Hb. simpl. rewrite bool_decide_true by done.
      repeat split; try done; by left. }
    destruct d as [site|]; [|done].
    destruct (truthy (Some site)) eqn:Hd; [|done]. simpl.
    destruct Hend as (_ & _ & Hbe).
    unfold session_inv, paired, after_open. simpl.
    rewrite bracket_app. simpl in Hbe. rewrite Hbe. simpl.
    repeat split; try done; by right.
  - destruct (check_for_nudge_frame (after_reset clock w))
      as (Hc2 & Hs2 & Hss2 & _).
    unfold session_inv, paired. rewrite Hc2, Hs2, Hss2, Hc1, Hs1, Hss1.
    repeat split; try done; by right.
Qed.


Lemma update_session_ongoing d w :
  truthy (current_site (self w)) = true → d = current_site (self w) →
  update_session clock d w = check_for_nudge clock (after_reset clock w).
Proof.
  intros Ht ->. rewrite update_session_eq. simpl. rewrite Ht. simpl.
  by rewrite bool_decide_false by (by intros []).
Qed.

Lemma update_session_emits d w ev :
  emitted (update_session clock d w) = Some ev →
  truthy (current_site (self w)) = true ∧ d = current_site (self w) ∧
  update_session clock d w = check_for_nudge clock (after_reset clock w).
Proof.
  intros He.
  assert (truthy (current_site (self w)) = true ∧ d = current_site (self w))
    as [Ht Hd]; [|by eauto using update_session_ongoing].
  revert He. rewrite update_session_eq. unfold emitted. simpl.
  destruct (truthy d && _); [by destruct d|].
  destruct (truthy (current_site (self w))); simpl; [|done].
  case_bool_decide as Hne; [by destruct d as [site|]; [destruct (truthy (Some site))|]|].
  intros _. split; [done|]. by destruct (decide (d = current_site (self w))).
Qed.

Lemma update_session_raises d w e :
  snd (update_session clock d w) = Raise e →
  truthy (current_site (self w)) = true ∧ d = current_site (self w) ∧
  update_session clock d w = check_for_nudge clock (after_reset clock w).
Proof.
  intros He.
  assert (truthy (current_site (self w)) = true ∧ d = current_site (self w))
    as [Ht Hd]; [|by eauto using update_session_ongoing].
  revert He. rewrite update_session_eq. simpl.
  destruct (truthy d && _); [by destruct d|].
  destruct (truthy (current_site (self w))); simpl; [|done].
  case_bool_decide as Hne; [by destruct d as [site|]; [destruct (truthy (Some site))|]|].
  intros _. split; [done|]. by destruct (decide (d = current_site (self w))).
Qed.

(** The effect of one poll on the accumulator and on the console: either
    no session ends, or the open session ends and its duration is added. *)
Lemma update_session_stats d w :
  let w1 := after_reset clock w in
  let w' := fst (update_session clock d w) in
  (daily_stats (self w') = daily_stats (self w1) ∧
   ∃ extra, console w' = console w ++ extra ∧ Forall (λ l, ends l = false) extra) ∨
  (∃ site started extra,
     current_site (self w) = Some site ∧ session_start (self w) = Some started ∧
     let duration := minutes_between started (clock (ticks w1)) in
     let total := (stats_get (daily_stats (self w1)) site + duration)%Q in
     daily_stats (self w') = <[site := total]> (daily_stats (self w1)) ∧
     console w' = console w ++ Ended site duration :: TotalToday site total :: extra ∧
     Forall (λ l, ends l = false) extra).
Proof.
  intros w1 w'. subst w'. rewrite update_session_eq. fold w1. simpl.
  destruct (after_reset_frame w) as (Hc1 & Hs1 & Hss1 & _ & _ & _). fold w1 in Hc1, Hs1, Hss1.
  destruct (truthy d && negb (truthy (current_site (self w)))) eqn:E1.
  { left. destruct d as [site|]; simpl.
    - split; [done|]. exists [Started site]. rewrite Hc1. split; [done|]. by repeat constructor.
    - split; [done|]. exists []. rewrite Hc1, app_nil_r. by split. }
  destruct (truthy (current_site (self w))) eqn:Etr; simpl.
  2:{ left. split; [done|]. exists []. rewrite Hc1, app_nil_r. by split. }
  case_bool_decide as Hne; simpl.
  - destruct (current_site (self w)) as [s|] eqn:Hcs; [|done].
    destruct (session_start (self w)) as [t0|] eqn:Hst.
    + right. exists s, t0. rewrite (_end_session_eq s t0) by (done || congruence).
      destruct d as [site|]; simpl; [destruct (negb (String.eqb site EmptyString)); simpl|].
      * exists [Switched site]. rewrite Hc1, <- app_assoc. repeat split; try done. by repeat constructor.
      * exists []. rewrite Hc1. by repeat split.
      * exists []. rewrite Hc1. by repeat split.
    + left. rewrite _end_session_skip by (right; congruence).
      destruct d as [site|]; simpl; [destruct (negb (String.eqb site EmptyString)); simpl|].
      * split; [done|]. exists [Switched site]. rewrite Hc1. split; [done|]. by repeat constructor.
      * split; [done|]. exists []. rewrite Hc1, app_nil_r. by split.
      * split; [done|]. exists []. rewrite Hc1, app_nil_r. by split.
  - left. destruct (check_for_nudge_frame w1) as (Hc2 & _ & _ & Hd2 & _).
    split; [done|]. exists []. rewrite Hc2, Hc1, app_nil_r. by split.
Qed.

Lemma update_session_ticks d w :
  (ticks w < ticks (fst (update_session clock d w)))%nat.
Proof.
  unfold_monitor. simpl.
  repeat (case_match; simpl in *; simplify_eq); simpl; lia.
Qed.

(** *** Runs *)

Lemma new_monitor_world file w0 :
  new_monitor clock file = Ok w0 →
  ∃ cfg ts, w0 = mkWorld 1 [] (mkMonitor cfg ts None None None ∅ (date_of (clock 0))).
Proof.
  unfold new_monitor. destruct (load_config file).2 as [[cfg ts]|]; [|done].
  intros [= <-]. eauto.
Qed.

Lemma run_app acts1 acts2 w :
  run clock (acts1 ++ acts2) w = run clock acts2 (run clock acts1 w).
Proof. unfold run. apply fold_left_app. Qed.

Lemma run_invariant (I : World → Prop) acts w :
  (∀ a w, I w → I (step clock a w)) → I w → I (run clock acts w).
Proof.
  intros Hstep. revert w. induction acts as [|a acts IH]; intros w Hw; [done|].
  simpl. apply IH, Hstep, Hw.
Qed.

Lemma run_marked_fst acts w mark :
  (run_marked clock acts w mark).1 = run clock acts w.
Proof.
  revert w mark. induction acts as [|a acts IH]; intros w mark; [done|].
  simpl. apply IH.
Qed.

Lemma step_session_inv a w : session_inv w → session_inv (step clock a w).
Proof.
  destruct a as [d|]; simpl; [apply update_session_session_inv|].
  destruct (get_daily_summary_frame w) as (Hs & Hc & _).
  unfold session_inv. by rewrite Hs, Hc.
Qed.

Lemma reachable_session_inv file w0 acts :
  new_monitor clock file = Ok w0 → session_inv (run clock acts w0).
Proof.
  intros (cfg & ts & ->)%new_monitor_world.
  apply run_invariant; [apply step_session_inv|].
  unfold session_inv, paired. simpl. repeat split; try done. by left.
Qed.

(** *** Stored instants are past readings *)

Lemma update_session_session_start d w :
  let w' := fst (update_session clock d w) in
  session_start (self w') = session_start (self w) ∨
  session_start (self w') = None ∨
  ∃ k, (ticks w < k < ticks w')%nat ∧ session_start (self w') = Some (clock k).
Proof.
  unfold_monitor. simpl.
  repeat (case_match; simpl in *; simplify_eq); simpl; auto.
  all: right; right; eexists; (split; [|reflexivity]); lia.
Qed.

Lemma update_session_last_nudge_time d w :
  let w' := fst (update_session clock d w) in
  last_nudge_time (self w') = last_nudge_time (self w) ∨
  (is_NUDGE (emitted (update_session clock d w)) = true ∨
   snd (update_session clock d w) = Raise OverflowError) ∧
  ∃ k, (ticks w < k < ticks w')%nat ∧ last_nudge_time (self w') = Some (clock k).
Proof.
  simpl. rewrite update_session_eq. simpl.
  destruct (after_reset_frame w) as (_ & _ & _ & Hl1 & _ & Hk1).
  destruct (truthy d && _); [by destruct d; left|].
  destruct (truthy (current_site (self w))); simpl; [|by left].
  case_bool_decide.
  - left. unfold_monitor. simpl. unfold after_open.
    repeat (case_match; simpl in *; simplify_eq); simpl; done.
  - destruct (check_for_nudge_frame (after_reset clock w))
      as (_ & _ & _ & _ & _ & _ & Hk2 & [Hl2|(Hn & k & Hk & Hl2)]).
    + left. congruence.
    + right. split; [done|]. exists k. split; [lia|done].
Qed.

Lemma step_past_inv a w : past_inv clock w → past_inv clock (step clock a w).
Proof.
  intros [Hs Hl]. destruct a as [d|]; simpl.
  - pose proof (update_session_ticks d w) as Hk. split; intros t Ht.
    + destruct (update_session_session_start d w) as [He|[He|(k & Hk' & He)]];
        simpl in He; rewrite He in Ht.
      * destruct (Hs t Ht) as (k & ? & ->). exists k. split; [lia|done].
      * done.
      * injection Ht as <-. exists k. split; [lia|done].
    + destruct (update_session_last_nudge_time d w) as [He|(_ & k & Hk' & He)];
        simpl in He; rewrite He in Ht.
      * destruct (Hl t Ht) as (k & ? & ->). exists k. split; [lia|done].
      * injection Ht as <-. exists k. split; [lia|done].
  - destruct (get_daily_summary_frame w) as (He & _ & Hk).
    unfold past_inv. rewrite He, Hk. split; intros t Ht.
    + destruct (Hs t Ht) as (k & ? & ->). exists k. split; [lia|done].
    + destruct (Hl t Ht) as (k & ? & ->). exists k. split; [lia|done].
Qed.

Lemma reachable_past_inv file w0 acts :
  new_monitor clock file = Ok w0 → past_inv clock (run clock acts w0).
Proof.
  intros (cfg & ts & ->)%new_monitor_world.
  apply run_invariant; [apply step_past_inv|]. by split.
Qed.

(** *** The accumulator *)

Lemma stats_get_nonneg stats site : stats_nonneg stats → (0 <= stats_get stats site)%Q.
Proof.
  intros H. unfold stats_get. destruct (stats !! site) as [q|] eqn:E; simpl; [eauto|done].
Qed.

Lemma after_reset_stats w :
  let w1 := after_reset clock w in
  (ticks w < ticks w1)%nat ∧
  (daily_stats (self w1) = daily_stats (self w) ∨ daily_stats (self w1) = ∅).
Proof. unfold after_reset. case_bool_decide; simpl; split; auto; lia. Qed.

Lemma step_stats_nonneg a w :
  monotone clock → past_inv clock w →
  stats_nonneg (daily_stats (self w)) →
  stats_nonneg (daily_stats (self (step clock a w))).
Proof.
  intros Hm [Hs _] Hn. destruct a as [d|]; simpl.
  2:{ destruct (get_daily_summary_frame w) as (He & _). by rewrite He. }
  destruct (after_reset_stats w) as (Hk & Hst).
  assert (Hn1 : stats_nonneg (daily_stats (self (after_reset clock w)))).
  { destruct Hst as [->| ->]; [done|]. intros site q. by rewrite lookup_empty. }
  destruct (update_session_stats d w)
    as [(-> & _)|(site & started & extra & Hc & Hss & -> & _)]; [done|].
  intros site' q. rewrite lookup_insert. case_decide as E; [|apply Hn1].
  intros [= <-]. destruct (Hs _ Hss) as (k & Hlt & ->).
  pose proof (stats_get_nonneg _ site Hn1).
  assert (k ≤ ticks (after_reset clock w))%nat as Hle. by lia.
  pose proof (minutes_between_nonneg _ _ (monotone_le clock _ _ Hm Hle)).
  lra.
Qed.

Lemma step_durations_nonneg a w :
  monotone clock → past_inv clock w →
  durations_nonneg (console w) → durations_nonneg (console (step clock a w)).
Proof.
  intros Hm [Hs _] Hn. destruct a as [d|]; simpl.
  2:{ destruct (get_daily_summary_frame w) as (_ & He & _). by rewrite He. }
  destruct (after_reset_stats w) as (Hk & _).
  assert (Hx : ∀ extra, Forall (λ l, ends l = false) extra →
                 ∀ site q, ¬ In (Ended site q) extra).
  { intros extra HF site q Hin. rewrite Forall_forall in HF.
    apply list_elem_of_In, HF in Hin. done. }
  destruct (update_session_stats d w)
    as [(_ & extra & -> & HF)|(site & started & extra & Hc & Hss & _ & -> & HF)];
    intros site' q Hin; apply in_app_or in Hin as [Hin|Hin]; eauto.
  - by apply Hx in Hin.
  - destruct Hin as [[= <- <-]|[[=]|Hin]]; [|by apply Hx in Hin].
    destruct (Hs _ Hss) as (k & Hlt & ->).
    apply minutes_between_nonneg, monotone_le; [done|lia].
Qed.

Lemma reachable_nonneg file w0 acts :
  monotone clock → new_monitor clock file = Ok w0 →
  stats_nonneg (daily_stats (self (run clock acts w0))) ∧
  durations_nonneg (console (run clock acts w0)).
Proof.
  intros Hm Hnew.
  pose proof (λ acts, reachable_past_inv file w0 acts Hnew) as Hpast.
  destruct (new_monitor_world _ _ Hnew) as (cfg & ts & ->).
  induction acts as [|a acts IH] using rev_ind.
  - simpl. split; [intros site q; by rewrite lookup_empty|by intros site q []].
  - rewrite run_app. simpl. destruct IH as [IH1 IH2]. split.
    + apply step_stats_nonneg; auto.
    + apply step_durations_nonneg; auto.
Qed.

Lemma closed_minutes_app site a b :
  (closed_minutes site (a ++ b) == closed_minutes site a + closed_minutes site b)%Q.
Proof.
  induction a as [|l a IH]; simpl; [lra|].
  destruct l; try done. rewrite IH. lra.
Qed.

Lemma closed_minutes_no_ends site extra :
  Forall (λ l, ends l = false) extra → closed_minutes site extra = 0%Q.
Proof.
  induction 1 as [|l extra Hl _ IH]; [done|]. by destruct l.
Qed.

Lemma stats_get_insert stats site site' q :
  stats_get (<[site := q]> stats) site' =
  if decide (site = site') then q else stats_get stats site'.
Proof. unfold stats_get. rewrite lookup_insert. by case_decide. Qed.

Lemma step_ledger_inv a w mark :
  ledger_inv w mark →
  ledger_inv (step clock a w)
    (if rollover_observed clock a w then length (console w) else mark).
Proof.
  intros [Hmark Hsum]. destruct a as [d|]; simpl.
  2:{ destruct (get_daily_summary_frame w) as (He & Hc & _).
      unfold ledger_inv. by rewrite He, Hc. }
  set (mark' := if bool_decide _ then _ else _).
  assert (Hmark' : (mark' ≤ length (console w))%nat).
  { subst mark'. case_bool_decide; lia. }
  assert (H1 : ∀ site, (stats_get (daily_stats (self (after_reset clock w))) site ==
                        closed_minutes site (drop mark' (console w)))%Q).
  { intros site. subst mark'. unfold after_reset. case_bool_decide; simpl; [|apply Hsum].
    by rewrite drop_all. }
  destruct (update_session_stats d w)
    as [(Hst & extra & Hco & HF)|(site & started & extra & Hc & Hss & Hst & Hco & HF)];
    simpl in *; unfold ledger_inv; rewrite Hst, Hco, length_app;
    (split; [lia|]); intros site'; rewrite drop_app_le by done;
    rewrite closed_minutes_app.
  - rewrite (closed_minutes_no_ends _ _ HF), H1. lra.
  - rewrite stats_get_insert. simpl.
    rewrite (closed_minutes_no_ends _ _ HF).
    case_decide as E.
    + subst site'. rewrite String.eqb_refl, H1. lra.
    + apply String.eqb_neq in E. rewrite E, H1. lra.
Qed.

Lemma reachable_ledger_inv file w0 acts :
  new_monitor clock file = Ok w0 →
  ledger_inv (run_marked clock acts w0 0).1 (run_marked clock acts w0 0).2.
Proof.
  intros (cfg & ts & ->)%new_monitor_world.
  set (w0 := mkWorld _ _ _).
  assert (H0 : ledger_inv w0 0) by (split; [simpl; lia|done]).
  revert H0. generalize w0 0%nat. clear w0.
  induction acts as [|a acts IH]; intros w mark Hw; [done|].
  simpl. apply IH, step_ledger_inv, Hw.
Qed.

(** *** Events *)

Lemma check_for_nudge_emits w ev :
  emitted (check_for_nudge clock w) = Some ev →
  ∃ site started sc L I,
    current_site (self w) = Some site ∧ truthy (Some site) = true ∧
    session_start (self w) = Some started ∧
    tracked_sites (self w) !! site = Some sc ∧
    daily_limit sc = Some L ∧ nudge_interval sc = Some I.
Proof.
  unfold emitted. unfold_monitor. simpl.
  destruct (current_site (self w)) as [site|]; [|done].
  destruct (session_start (self w)) as [started|]; [|done].
  destruct (negb (String.eqb site EmptyString)) eqn:Ht; [|done].
  destruct (tracked_sites (self w) !! site) as [sc|] eqn:Hsc; [|done]. simpl.
  destruct (daily_limit sc) as [L|] eqn:HL; simpl; [|done].
  destruct (nudge_interval sc) as [I|] eqn:HI; simpl; [|done].
  intros _. by exists site, started, sc, L, I.
Qed.

Lemma select_severity_cases site L total csm :
  let time_remaining := (L - total)%Q in
  let r := select_severity site L total csm in
  ((time_remaining <= 0)%Q → r = (warning, ExceededDailyLimit site total L)) ∧
  ((0 < time_remaining)%Q → (time_remaining <= 10)%Q →
     r = (warning, RunningLow site time_remaining csm)) ∧
  ((10 < time_remaining)%Q → r = (info, FriendlyReminder site csm time_remaining)).
Proof.
  simpl. unfold select_severity.
  destruct (Qle_bool (L - total) 0) eqn:E0;
    [apply Qle_bool_iff in E0|apply (Qge_bool_false 0 (L - total)) in E0];
    (destruct (Qle_bool (L - total) 10) eqn:E10;
      [apply Qle_bool_iff in E10|apply (Qge_bool_false 10 (L - total)) in E10]);
    repeat split; intros; try done; lra.
Qed.

Lemma block_condition_iff sc total L :
  block_condition sc total L = true ↔ (L <= total)%Q ∧ hard_block sc = Some true.
Proof.
  unfold block_condition. rewrite andb_true_iff, Qge_bool_iff.
  destruct (hard_block sc) as [[]|]; simpl; intuition congruence.
Qed.

Lemma step_last_nudge_time a w :
  last_nudge_time (self (step clock a w)) = last_nudge_time (self w) ∨
  ∃ d, a = Poll d ∧
       (is_NUDGE (emitted (update_session clock d w)) = true ∨
        snd (update_session clock d w) = Raise OverflowError).
Proof.
  destruct a as [d|]; simpl.
  - destruct (update_session_last_nudge_time d w) as [H|[H _]]; eauto.
  - destruct (get_daily_summary_frame w) as (-> & _). by left.
Qed.

Lemma nudge_gate_true I started w :
  nudge_gate clock I started w = true ↔
  (I <= session_minutes clock started w)%Q ∧
  (I <= minutes_since_last_nudge clock w)%Q.
Proof. unfold nudge_gate. by rewrite andb_true_iff, !Qge_bool_iff. Qed.

(** The nudge decision, as [check_for_nudge] evaluates it on an ongoing
    poll. *)
Lemma nudge_gate_iff w site started sc L I :
  current_site (self w) = Some site → truthy (Some site) = true →
  session_start (self w) = Some started →
  tracked_sites (self w) !! site = Some sc →
  daily_limit sc = Some L → nudge_interval sc = Some I →
  let w1 := after_reset clock w in
  is_NUDGE (emitted (update_session clock (Some site) w)) = true ↔
    block_condition sc (total_today clock site started w1) L = false ∧
    nudge_gate clock I started w1 = true ∧ fits_float L = true.
Proof.
  intros Hc Ht Hs Hsc HL HI w1.
  destruct (after_reset_frame w) as (_ & Hc1 & Hs1 & Hl1 & Hts1 & _).
  fold w1 in Hc1, Hs1, Hl1, Hts1.
  rewrite update_session_ongoing by (by rewrite Hc). fold w1.
  rewrite (check_for_nudge_eq w1 site started sc L I) by congruence.
  simpl. unfold emitted.
  destruct (block_condition _ _ _); simpl; [by split; [|intros []]|].
  destruct (nudge_gate _ _ _ _); simpl; [|by split; [|intros (_ & ? & _)]].
  destruct (fits_float L); simpl; [done|by split; [|intros (_ & _ & ?)]].
Qed.

Lemma update_session_site_change d w :
  let w' := fst (update_session clock d w) in
  current_site (self w') ≠ current_site (self w) →
  last_nudge_time (self w') = last_nudge_time (self w) ∧
  (session_start (self w') = None ∨
   ∃ k, (ticks w < k)%nat ∧ session_start (self w') = Some (clock k)).
Proof.
  simpl. intros Hne. split.
  - destruct (update_session_last_nudge_time d w) as [H|[H _]]; [done|].
    exfalso. apply Hne.
    assert (Heq : update_session clock d w
                  = check_for_nudge clock (after_reset clock w)).
    { destruct H as [H|H].
      - destruct (emitted (update_session clock d w)) as [ev|] eqn:Hev; [|done].
        by apply update_session_emits in Hev as (_ & _ & ->).
      - by apply update_session_raises in H as (_ & _ & ->). }
    rewrite Heq.
    destruct (check_for_nudge_frame (after_reset clock w)) as (_ & -> & _).
    apply after_reset_frame.
  - revert Hne. unfold_monitor. simpl.
    repeat (case_match; simpl in *; simplify_eq); simpl; intros Hne;
      try done; try (by left);
      try (right; eexists; (split; [|reflexivity]); lia).
Qed.

Lemma bracket_counts o lines o' :
  bracket o lines = Some o' →
  (opened_sessions lines + open_count o =
   ended_sessions lines + open_count o')%nat.
Proof.
  unfold opened_sessions, ended_sessions.
  revert o. induction lines as [|l lines IH]; intros o; simpl.
  - by intros [= ->].
  - destruct l; simpl.
    + destruct o; [done|]. intros H%IH. simpl in *. lia.
    + destruct o; [done|]. intros H%IH. simpl in *. lia.
    + case_bool_decide as E; [|done]. subst o. intros H%IH. simpl in *. lia.
    + apply IH.
Qed.

Lemma summary_sites_lookup ts items acc sites :
  NoDup items.*1 →
  summary_sites ts items acc = Ok sites →
  ∀ site,
    sites !! site =
    match (list_to_map items : gmap string Q) !! site with
    | Some minutes => value (summary_entry ts site minutes)
    | None => acc !! site
    end.
Proof.
  revert acc. induction items as [|[s m] items IH]; intros acc Hnd; simpl.
  - by intros [= ->].
  - apply NoDup_cons in Hnd as [Hs Hnd].
    destruct (summary_entry ts s m) as [e|x] eqn:He; [|done].
    intros Hrest site. rewrite (IH _ Hnd Hrest site).
    destruct (decide (s = site)) as [->|Hne].
    + by rewrite (not_elem_of_list_to_map_1 _ _ Hs), !lookup_insert_eq, He.
    + by rewrite !lookup_insert_ne by done.
Qed.

Lemma summary_sites_Raise ts items acc e :
  summary_sites ts items acc = Raise e →
  ∃ site minutes, (site, minutes) ∈ items ∧ summary_entry ts site minutes = Raise e.
Proof.
  revert acc. induction items as [|[s m] items IH]; intros acc; simpl; [done|].
  destruct (summary_entry ts s m) as [entry|x] eqn:He.
  - intros (site & minutes & Hin & H)%IH. exists site, minutes.
    split; [by right|done].
  - intros [= ->]. exists s, m. split; [by left|done].
Qed.

Lemma summary_sites_Ok ts items acc sites :
  summary_sites ts items acc = Ok sites →
  ∀ site minutes, (site, minutes) ∈ items →
    ∃ entry, summary_entry ts site minutes = Ok entry.
Proof.
  revert acc. induction items as [|[s m] items IH]; intros acc; simpl.
  - intros _ site minutes Hin. by apply elem_of_nil in Hin.
  - destruct (summary_entry ts s m) as [entry|x] eqn:He; [|done].
    intros Hrest site minutes [[= -> ->]|Hin]%elem_of_cons; eauto.
Qed.

Lemma get_daily_summary_eq w :
  get_daily_summary clock w =
  (mkWorld (S (ticks w)) (console w) (self w),
   match summary_sites (tracked_sites (self w))
           (map_to_list (daily_stats (self w))) ∅ with
   | Ok sites => Ok (mkSummary (date_of (clock (ticks w))) sites)
   | Raise e => Raise e
   end).
Proof. unfold_monitor. simpl. by destruct (summary_sites _ _ _). Qed.

Lemma get_daily_summary_sites w summary :
  snd (get_daily_summary clock w) = Ok summary →
  summary_date summary = date_of (clock (ticks w)) ∧
  ∀ site,
    sites summary !! site =
    daily_stats (self w) !! site
      ≫= λ minutes, value (summary_entry (tracked_sites (self w)) site minutes).
Proof.
  rewrite get_daily_summary_eq. simpl.
  destruct (summary_sites _ _ _) as [sites|e] eqn:Hs; [|done].
  intros [= <-]. simpl. split; [done|]. intros site.
  rewrite (summary_sites_lookup _ _ _ _ (NoDup_fst_map_to_list _) Hs site).
  rewrite list_to_map_to_list.
  by destruct (daily_stats (self w) !! site).
Qed.

(** [get_daily_summary] raises the exception of an entry, and it raises as
    soon as one entry does. *)
Lemma get_daily_summary_raises w :
  (∀ e, snd (get_daily_summary clock w) = Raise e →
     ∃ site minutes,
       daily_stats (self w) !! site = Some minutes ∧
       summary_entry (tracked_sites (self w)) site minutes = Raise e) ∧
  (∀ site minutes e,
     daily_stats (self w) !! site = Some minutes →
     summary_entry (tracked_sites (self w)) site minutes = Raise e →
     ∃ e', snd (get_daily_summary clock w) = Raise e').
Proof.
  rewrite get_daily_summary_eq. simpl. split.
  - intros e. destruct (summary_sites _ _ _) as [sites|x] eqn:Hs; [done|].
    intros [= ->]. apply summary_sites_Raise in Hs as (site & minutes & Hin & He).
    exists site, minutes. split; [|done]. by apply elem_of_map_to_list.
  - intros site minutes e Hm He.
    destruct (summary_sites _ _ _) as [sites|x] eqn:Hs; [|eauto].
    apply elem_of_map_to_list in Hm.
    destruct (summary_sites_Ok _ _ _ _ Hs _ _ Hm) as [entry Hentry]. congruence.
Qed.

Lemma summary_entry_Ok ts site minutes e :
  summary_entry ts site minutes = Ok e →
  ∃ sc l, ts !! site = Some sc ∧ daily_limit sc = Some l ∧
    e = mkSiteSummary minutes l
          (if Qgt_bool l 0 then (minutes / l * 100)%Q else 0%Q)
          (Qgt_bool minutes l) ∧
    (Qgt_bool l 0 = true → fits_float l = true).
Proof.
  unfold summary_entry. destruct (ts !! site) as [sc|]; [|done].
  destruct (daily_limit sc) as [l|] eqn:Hl; [|done].
  destruct (Qgt_bool l 0) eqn:Hpos; destruct (fits_float l) eqn:Hf;
    simpl; try done; intros [= <-]; exists sc, l; by rewrite Hpos, ?Hf.
Qed.

Lemma summary_entry_Raise ts site minutes e :
  summary_entry ts site minutes = Raise e →
  (e = KeyError ∧
   match ts !! site with
   | Some sc => daily_limit sc = None
   | None => True
   end) ∨
  (e = OverflowError ∧
   ∃ sc l, ts !! site = Some sc ∧ daily_limit sc = Some l ∧
           (0 < l)%Q ∧ fits_float l = false).
Proof.
  unfold summary_entry. destruct (ts !! site) as [sc|]; [|intros [= <-]; by left].
  destruct (daily_limit sc) as [l|] eqn:Hl; [|intros [= <-]; by left].
  destruct (Qgt_bool l 0) eqn:Hpos; destruct (fits_float l) eqn:Hf; simpl; try done.
  intros [= <-]. right. split; [done|]. exists sc, l.
  apply Qgt_bool_iff in Hpos. done.
Qed.

Lemma summary_entry_time_spent ts site minutes e :
  summary_entry ts site minutes = Ok e → time_spent e = minutes.
Proof. by intros (sc & l & _ & _ & -> & _)%summary_entry_Ok. Qed.

Lemma update_session_tracked_sites d w :
  tracked_sites (self (fst (update_session clock d w))) = tracked_sites (self w).
Proof.
  unfold_monitor. simpl.
  repeat (case_match; simpl in *; simplify_eq); simpl; done.
Qed.

Lemma step_tracked_sites a w :
  tracked_sites (self (step clock a w)) = tracked_sites (self w).
Proof.
  destruct a as [d|]; simpl; [apply update_session_tracked_sites|].
  by destruct (get_daily_summary_frame w) as (-> & _).
Qed.

Lemma update_session_config d w :
  config (self (fst (update_session clock d w))) = config (self w).
Proof.
  unfold_monitor. simpl.
  repeat (case_match; simpl in *; simplify_eq); simpl; done.
Qed.

Lemma run_configuration acts w :
  config (self (run clock acts w)) = config (self w) ∧
  tracked_sites (self (run clock acts w)) = tracked_sites (self w).
Proof.
  revert w. induction acts as [|a acts IH]; intros w; [done|].
  simpl. destruct (IH (step clock a w)) as [-> ->].
  split; [|apply step_tracked_sites].
  destruct a as [d|]; simpl; [apply update_session_config|].
  by destruct (get_daily_summary_frame w) as (-> & _).
Qed.

(** ** The claims *)

(** Claim C10.  In every state the monitor can reach, from any
    configuration, clock and sequence of polls and summary requests,
    [current_site] is absent exactly when [session_start] is absent; so an
    open session always has its start time, and the console shows at most
    one session open, the one in [current_site]. *)
Theorem session_state_pairing file w0 acts :
  new_monitor clock file = Ok w0 →
  let w := run clock acts w0 in
  (current_site (self w) = None ↔ session_start (self w) = None) ∧
  (∀ site, current_site (self w) = Some site →
           ∃ started, session_start (self w) = Some started) ∧
  bracket None (console w) = Some (current_site (self w)).
Proof.
  intros Hnew. destruct (reachable_session_inv file w0 acts Hnew) as (Hp & _ & Hb).
  simpl. repeat split; try apply Hp; [|done].
  intros site Hs. destruct (session_start _) as [t|] eqn:E; [eauto|].
  apply Hp in E. congruence.
Qed.

(** Claim C7.  Every NUDGE a poll emits carries the live figures of
    the open session, and with [time_remaining = limit - total_today] its
    severity and message are: WARNING / exceeded daily limit when
    [time_remaining <= 0]; WARNING / running low when
    [0 < time_remaining <= 10]; INFO / friendly reminder when
    [time_remaining > 10]. *)
Theorem severity_selection d w severity site message session_time total limit :
  emitted (update_session clock d w)
    = Some (NUDGE severity site message session_time total limit) →
  let w1 := after_reset clock w in
  let time_remaining := (limit - total)%Q in
  (∃ started sc,
     current_site (self w) = Some site ∧ session_start (self w) = Some started ∧
     tracked_sites (self w) !! site = Some sc ∧ daily_limit sc = Some limit ∧
     session_time = session_minutes clock started w1 ∧
     total = total_today clock site started w1) ∧
  ((time_remaining <= 0)%Q →
     severity = warning ∧ message = ExceededDailyLimit site total limit) ∧
  ((0 < time_remaining)%Q → (time_remaining <= 10)%Q →
     severity = warning ∧ message = RunningLow site time_remaining session_time) ∧
  ((10 < time_remaining)%Q →
     severity = info ∧ message = FriendlyReminder site session_time time_remaining).
Proof.
  intros Hev. destruct (update_session_emits d w _ Hev) as (_ & _ & Heq).
  rewrite Heq in Hev.
  destruct (check_for_nudge_emits _ _ Hev) as (s & started & sc & L & I & Hc & Ht & Hs & Hsc & HL & HI).
  destruct (after_reset_frame w) as (_ & Hc1 & Hs1 & _ & Hts1 & _).
  rewrite (check_for_nudge_eq _ s started sc L I) in Hev by done.
  simpl in Hev. unfold emitted in Hev.
  destruct (block_condition _ _ _); [done|].
  destruct (nudge_gate _ _ _ _); [|done]. simpl in Hev.
  destruct (fits_float L); [|done]. injection Hev as <- <- <- <- <- <-.
  simpl. split.
  { exists started, sc. rewrite <- Hc1, <- Hs1, <- Hts1. done. }
  pose proof (select_severity_cases s L (total_today clock s started (after_reset clock w))
                (session_minutes clock started (after_reset clock w))) as (H1 & H2 & H3).
  simpl in *. repeat split; intros.
  all: try (rewrite H1 by done; done).
  all: try (rewrite H2 by done; done).
  all: try (rewrite H3 by done; done).
Qed.

(** Claim C2, as amended.  On a poll of an ongoing session whose site is
    configured with a [daily_limit] and a [nudge_interval] (both are read
    before the BLOCK test), a BLOCK is emitted if and only if
    [total_today >= daily_limit] and the site's [hard_block] flag is true.
    The check comes before the nudge gate: when it holds the result is the
    BLOCK whatever the gate says.  Emitting it changes nothing in the
    monitor ([last_nudge_time], the session and the accumulator are as the
    day check at the head of the poll left them), and the BLOCK fires again
    at the next poll of the same day whose clock reading is not earlier. *)
Theorem block_decision d w site started sc L I :
  current_site (self w) = Some site → truthy (Some site) = true →
  d = Some site → session_start (self w) = Some started →
  tracked_sites (self w) !! site = Some sc →
  daily_limit sc = Some L → nudge_interval sc = Some I →
  let w1 := after_reset clock w in
  let r := update_session clock d w in
  let total := total_today clock site started w1 in
  (is_BLOCK (emitted r) = true ↔ (L <= total)%Q ∧ hard_block sc = Some true) ∧
  ((L <= total)%Q → hard_block sc = Some true →
     r = (mkWorld (S (ticks w1)) (console w) (self w1),
          Ok (Some (BLOCK site (DailyLimitReached site total L)))) ∧
     last_nudge_time (self (fst r)) = last_nudge_time (self w) ∧
     (date_of (clock (ticks w)) = last_reset (self w) → self (fst r) = self w)) ∧
  (is_BLOCK (emitted r) = true →
     date_of (clock (ticks (fst r))) = last_reset (self (fst r)) →
     clock (ticks w1) ≤ clock (S (ticks (fst r))) →
     is_BLOCK (emitted (update_session clock d (fst r))) = true).
Proof.
  intros Hc Ht -> Hs Hsc HL HI w1 r total.
  destruct (after_reset_frame w) as (Hco1 & Hc1 & Hs1 & Hl1 & Hts1 & _).
  fold w1 in Hco1, Hc1, Hs1, Hl1, Hts1.
  assert (Hr : r = check_for_nudge clock w1).
  { subst r. apply update_session_ongoing; by rewrite Hc. }
  pose proof (check_for_nudge_eq w1 site started sc L I) as Heq.
  rewrite Hc1, Hs1, Hts1 in Heq. specialize (Heq Hc Ht Hs Hsc HL HI).
  simpl in Heq. rewrite <- Hr in Heq. fold total in Heq.
  assert (Hiff : is_BLOCK (emitted r) = true ↔ block_condition sc total L = true).
  { rewrite Heq. unfold emitted. destruct (block_condition _ _ _); simpl; [done|].
    destruct (nudge_gate _ _ _ _); simpl; [|by split].
    destruct (fits_float L); simpl; by split. }
  split; [|split].
  - rewrite Hiff. apply block_condition_iff.
  - intros HLt Hhb.
    assert (Hb : block_condition sc total L = true) by by apply block_condition_iff.
    rewrite Hb in Heq. rewrite Heq, Hco1. simpl. repeat split; [done|].
    intros Hd. subst w1. unfold after_reset. by rewrite bool_decide_false by (by intros []).
  - intros Hb Hdate Hclk. apply Hiff in Hb. rewrite Hb in Heq.
    set (w' := fst r) in *.
    assert (Hw' : w' = mkWorld (S (ticks w1)) (console w1) (self w1)) by (subst w'; by rewrite Heq).
    assert (Hreset : after_reset clock w' = mkWorld (S (ticks w')) (console w') (self w')).
    { unfold after_reset. by rewrite bool_decide_false by (by intros []). }
    rewrite update_session_ongoing; [|by rewrite Hw'; simpl; rewrite Hc1, Hc..].
    rewrite Hreset.
    assert (Hself : self w' = self w1) by by rewrite Hw'.
    rewrite (check_for_nudge_eq _ site started sc L I);
      [|simpl; rewrite ?Hself; (done || congruence)..].
    simpl.
    assert (Hb' : block_condition sc
              (total_today clock site started (mkWorld (S (ticks w')) (console w') (self w'))) L = true).
    { apply block_condition_iff in Hb as [Hb1 Hb2]. apply block_condition_iff. split; [|done].
      unfold total in Hb1. unfold total_today, session_minutes in *. simpl.
      rewrite Hself.
      pose proof (minutes_between_mono started started _ _ ltac:(lia) Hclk). lra. }
    by rewrite Hb'.
Qed.

(** Claim C3, as amended.  [_end_session] adds the computed duration
    [(now - session_start)] to the accumulator as it is, without clamping;
    when the clock readings never decrease, that duration is never negative
    and every value of the totals mapping is non-negative in every
    reachable state. *)
Theorem accumulator_nonneg_under_monotone_clock :
  (∀ w site started,
     current_site (self w) = Some site → truthy (Some site) = true →
     session_start (self w) = Some started →
     daily_stats (self (fst (_end_session clock w))) !! site
       = Some (stats_get (daily_stats (self w)) site
               + minutes_between started (clock (ticks w)))%Q) ∧
  (monotone clock →
   ∀ file w0 acts, new_monitor clock file = Ok w0 →
   ∀ site q, daily_stats (self (run clock acts w0)) !! site = Some q → (0 <= q)%Q).
Proof.
  split.
  - intros w site started Hc Ht Hs. rewrite (_end_session_eq site started) by done.
    simpl. apply lookup_insert_eq.
  - intros Hm file w0 acts Hnew. by apply (reachable_nonneg file w0 acts Hm Hnew).
Qed.

(** Claim C4, as amended.  A change of the current site does not reset
    [last_nudge_time]: the poll that opens, switches or closes a session
    leaves it as it was.  When the clock never runs backwards the kept time
    is not later than the start of the newly opened session, and it stays
    so until the gate of that session first passes, since a poll of the
    ongoing session leaves [session_start] alone and changes
    [last_nudge_time] only when its gate passes.  The minutes since the
    kept time are then at least [session_minutes], so for a site with a
    [daily_limit] and a [nudge_interval] the nudge gate of the new session
    passes exactly when [session_minutes >= nudge_interval]; the NUDGE is
    emitted exactly then, after the BLOCK check, when [daily_limit]
    converts to a float. *)
Theorem nudge_state_kept_across_sessions :
  (∀ d w,
     current_site (self (fst (update_session clock d w))) ≠ current_site (self w) →
     last_nudge_time (self (fst (update_session clock d w)))
       = last_nudge_time (self w)) ∧
  (monotone clock →
   ∀ file w0 acts d, new_monitor clock file = Ok w0 →
   let w := run clock acts w0 in
   let w' := fst (update_session clock d w) in
   current_site (self w') ≠ current_site (self w) →
   ∀ last started,
     last_nudge_time (self w') = Some last →
     session_start (self w') = Some started → last ≤ started) ∧
  (∀ w site started last sc L I,
     current_site (self w) = Some site → truthy (Some site) = true →
     session_start (self w) = Some started →
     tracked_sites (self w) !! site = Some sc →
     daily_limit sc = Some L → nudge_interval sc = Some I →
     last_nudge_time (self w) = Some last → last ≤ started →
     let w1 := after_reset clock w in
     clock (ticks w1) ≤ clock (S (ticks w1)) →
     (session_minutes clock started w1 <= minutes_since_last_nudge clock w1)%Q ∧
     (nudge_gate clock I started w1 = true ↔
        (I <= session_minutes clock started w1)%Q) ∧
     (is_NUDGE (emitted (update_session clock (Some site) w)) = true ↔
        block_condition sc (total_today clock site started w1) L = false ∧
        (I <= session_minutes clock started w1)%Q ∧ fits_float L = true)) ∧
  (∀ w site,
     current_site (self w) = Some site → truthy (Some site) = true →
     let r := update_session clock (Some site) w in
     session_start (self (fst r)) = session_start (self w) ∧
     (last_nudge_time (self (fst r)) = last_nudge_time (self w) ∨
      is_NUDGE (emitted r) = true ∨ snd r = Raise OverflowError)).
Proof.
  split; [|split; [|split]]; cycle 3.
  { intros w site Hc Ht r. subst r. split.
    - rewrite update_session_ongoing by (by rewrite Hc).
      destruct (check_for_nudge_frame (after_reset clock w)) as (_ & _ & -> & _).
      apply after_reset_frame.
    - destruct (update_session_last_nudge_time (Some site) w) as [Hl|[Hl _]];
        simpl in *; tauto. }
  - intros d w Hne. by apply update_session_site_change.
  - intros Hm file w0 acts d Hnew w w' Hne last started Hl Hs.
    destruct (update_session_site_change d w Hne) as [Hsame [Hnone|(k & Hk & Hst)]];
      fold w' in Hsame, Hnone || fold w' in Hsame, Hst; [congruence|].
    destruct (reachable_past_inv file w0 acts Hnew) as [_ Hpast].
    rewrite Hsame in Hl. destruct (Hpast _ Hl) as (j & Hj & ->).
    rewrite Hst in Hs. injection Hs as <-.
    apply monotone_le; [done|]. fold w in Hj. lia.
  - intros w site started last sc L I Hc Ht Hs Hsc HL HI Hl Hle w1 Hclk.
    rewrite (nudge_gate_iff w site started sc L I) by done. fold w1.
    destruct (after_reset_frame w) as (_ & _ & _ & Hl1 & _).
    fold w1 in Hl1.
    assert (Hge : (session_minutes clock started w1 <= minutes_since_last_nudge clock w1)%Q).
    { unfold session_minutes, minutes_since_last_nudge. rewrite Hl1, Hl.
      by apply minutes_between_mono. }
    assert (Hgate : nudge_gate clock I started w1 = true ↔
                    (I <= session_minutes clock started w1)%Q).
    { rewrite nudge_gate_true. split; [tauto|]. intros ?. split; [done|lra]. }
    split; [done|]. split; [done|]. by rewrite Hgate.
Qed.

(** Claim C6, as amended.  The accumulator's total for a site equals the sum of
    the durations of the sessions on that site closed since the last
    rollover.  The nudge decision adds the elapsed time of the open session
    to it: the total carried by every NUDGE or BLOCK is that sum plus
    [now - session_start].  The daily summary does not: [time_spent] is the
    stored total of closed sessions, and a site without a closed session
    has no entry. *)
Theorem daily_total_closed_plus_live file w0 acts :
  new_monitor clock file = Ok w0 →
  let w := (run_marked clock acts w0 0).1 in
  let mark := (run_marked clock acts w0 0).2 in
  w = run clock acts w0 ∧
  (∀ site, (stats_get (daily_stats (self w)) site ==
            closed_minutes site (drop mark (console w)))%Q) ∧
  (∀ d ev, emitted (update_session clock d w) = Some ev →
     let w1 := after_reset clock w in
     let mark1 :=
       if rollover_observed clock (Poll d) w then length (console w) else mark in
     ∃ site started total,
       current_site (self w) = Some site ∧ session_start (self w) = Some started ∧
       event_total_today ev = Some total ∧
       (total == closed_minutes site (drop mark1 (console w))
                 + minutes_between started (clock (ticks w1)))%Q) ∧
  (∀ summary, snd (get_daily_summary clock w) = Ok summary →
     ∀ site,
       (daily_stats (self w) !! site = None → sites summary !! site = None) ∧
       (∀ e, sites summary !! site = Some e →
          daily_stats (self w) !! site = Some (time_spent e) ∧
          (time_spent e == closed_minutes site (drop mark (console w)))%Q)).
Proof.
  intros Hnew w mark.
  pose proof (reachable_ledger_inv file w0 acts Hnew) as Hinv.
  fold w mark in Hinv. split; [apply run_marked_fst|]. split; [apply Hinv|]. split.
  - intros d ev Hev w1 mark1.
    destruct (update_session_emits d w _ Hev) as (_ & _ & Heq).
    rewrite Heq in Hev.
    destruct (check_for_nudge_emits _ _ Hev)
      as (site & started & sc & L & I & Hc & Ht & Hs & Hsc & HL & HI).
    rewrite (check_for_nudge_eq _ site started sc L I) in Hev by done.
    destruct (after_reset_frame w) as (Hco1 & Hc1 & Hs1 & _).
    pose proof (step_ledger_inv (Poll d) w mark Hinv) as [_ Hsum].
    assert (Hstats : (stats_get (daily_stats (self w1)) site ==
                      closed_minutes site (drop mark1 (console w)))%Q).
    { subst w1 mark1. simpl. unfold after_reset.
      destruct Hinv as [_ Hsum0].
      case_bool_decide; simpl; [by rewrite drop_all|apply Hsum0]. }
    exists site, started, (total_today clock site started w1).
    rewrite <- Hc1, <- Hs1. repeat split; [done..| |].
    + revert Hev. simpl. unfold emitted.
      destruct (block_condition _ _ _); simpl; [by intros [= <-]|].
      destruct (nudge_gate _ _ _ _); simpl; [|done].
      destruct (fits_float L); simpl; [by intros [= <-]|done].
    + unfold total_today, session_minutes. by rewrite Hstats.
  - intros summary Hsum site.
    destruct (get_daily_summary_sites w summary Hsum) as [_ Hsites].
    rewrite Hsites. split; [by intros ->|].
    intros e He. destruct (daily_stats (self w) !! site) as [minutes|] eqn:Hm; [|done].
    simpl in He. apply value_Some, summary_entry_time_spent in He as ->.
    split; [done|].
    destruct Hinv as [_ Hs]. specialize (Hs site). unfold stats_get in Hs.
    by rewrite Hm in Hs.
Qed.

(** Claim C8, as amended.  The sessions on the console are well bracketed: every
    start opens a session when none is open, every end closes the open one,
    so each opened session is closed at most once and the only session not
    yet closed is the current one.  A session is closed at the poll whose
    detection differs from its site, with duration [now - session_start],
    which is non-negative when the clock never runs backwards.  There is no
    flush: the final summary of [quit_app] and of the [KeyboardInterrupt]
    handler leaves the monitor and the console as they were, so a session
    open at shutdown stays open and its time is not accumulated. *)
Theorem session_closure file w0 acts :
  new_monitor clock file = Ok w0 →
  let w := run clock acts w0 in
  bracket None (console w) = Some (current_site (self w)) ∧
  opened_sessions (console w)
    = (ended_sessions (console w) + open_count (current_site (self w)))%nat ∧
  (∀ d site started,
     current_site (self w) = Some site → session_start (self w) = Some started →
     d ≠ Some site →
     let w' := fst (update_session clock d w) in
     let duration := minutes_between started (clock (ticks (after_reset clock w))) in
     ∃ extra, console w' = console w ++ Ended site duration :: extra ∧
              ended_sessions extra = 0%nat) ∧
  (∀ d, d = current_site (self w) →
     console (fst (update_session clock d w)) = console w) ∧
  (self (fst (quit_app clock w)) = self w ∧
   console (fst (quit_app clock w)) = console w) ∧
  (monotone clock →
   ∀ site duration, In (Ended site duration) (console w) → (0 <= duration)%Q).
Proof.
  intros Hnew w.
  destruct (reachable_session_inv file w0 acts Hnew) as (Hp & Ht & Hb).
  fold w in Hp, Ht, Hb.
  split; [done|]. split.
  { apply bracket_counts in Hb. simpl in Hb. lia. }
  split; [|split; [|split]].
  - intros d site started Hc Hs Hne w' duration.
    destruct Ht as [Ht|Ht]; [congruence|].
    subst w'. rewrite update_session_eq. simpl.
    destruct (after_reset_frame w) as (Hco1 & Hc1 & Hs1 & _).
    rewrite Hc in Ht, Hc1.
    rewrite Hc, Ht, andb_false_r. simpl.
    rewrite bool_decide_true by done.
    rewrite (_end_session_eq site started) by congruence.
    destruct d as [s|]; [destruct (truthy (Some s))|]; simpl;
      rewrite Hco1, <- ?app_assoc; simpl; eexists; (split; [reflexivity|done]).
  - intros d ->. rewrite update_session_eq. simpl.
    destruct (after_reset_frame w) as (Hco1 & _).
    destruct Ht as [Ht|Ht]; rewrite Ht; simpl; [done|].
    rewrite bool_decide_false by (by intros []).
    by destruct (check_for_nudge_frame (after_reset clock w)) as (-> & _).
  - unfold quit_app. by destruct (get_daily_summary_frame w) as (-> & -> & _).
  - intros Hm. by apply (reachable_nonneg file w0 acts Hm Hnew).
Qed.

(** Claim C9, as amended.  [load_config] does not validate the limits: a
    file that holds a JSON object with a [tracked_sites] object is loaded
    as it stands, whatever the daily limits and nudge intervals in it, zero
    and negative ones included.  The file is left as it was, the monitor
    starts with that configuration, and it works with it at every poll and
    summary that follows. *)
Theorem load_config_accepts_any_limits c ts :
  cfg_tracked_sites c = Some ts →
  load_config (Json c) = (Json c, Ok (c, ts)) ∧
  new_monitor clock (Json c) = Ok (fresh_world clock c ts) ∧
  ∀ acts,
    config (self (run clock acts (fresh_world clock c ts))) = c ∧
    tracked_sites (self (run clock acts (fresh_world clock c ts))) = ts.
Proof.
  intros Hts.
  assert (Hload : load_config (Json c) = (Json c, Ok (c, ts)))
    by (unfold load_config; by rewrite Hts).
  split; [done|]. split.
  - unfold new_monitor. by rewrite Hload.
  - intros acts. apply run_configuration.
Qed.

End Facts.

(** ** The scenarios of the specification, evaluated *)

(** Scenario A: the first nudge fires at minute 15 with severity INFO,
    none at minutes 16 to 29, the second at minute 30. *)
Example scenario_A :
  let events := poll_events scenario_A_clock (replicate 31%nat (Some youtube))
                  (fresh_world scenario_A_clock default_config default_sites) in
  map is_NUDGE events
    = replicate 15%nat false ++ [true] ++ replicate 14%nat false ++ [true] ∧
  ∃ message session_time total,
    events !! 15%nat = Some (Some (NUDGE info youtube message session_time total 60%Q)) ∧
    (session_time == 15)%Q ∧ (total == 15)%Q.
Proof.
  split; [by vm_compute|]. do 3 eexists. split; [by vm_compute|]. by vm_compute.
Qed.

(** Scenario B without [hard_block]: 15 minutes into the second session the
    total is 70 and the nudge is a WARNING with the exceeded message. *)
Example scenario_B_nudge :
  let events :=
    poll_events scenario_B_clock [Some youtube; None; Some youtube; Some youtube]
      (fresh_world scenario_B_clock default_config default_sites) in
  ∃ session_time total,
    events !! 3%nat
      = Some (Some (NUDGE warning youtube (ExceededDailyLimit youtube total 60%Q)
                      session_time total 60%Q)) ∧
    (session_time == 15)%Q ∧ (total == 70)%Q.
Proof. do 2 eexists. split; [by vm_compute|]. by vm_compute. Qed.

(** Scenario B with [hard_block]: a BLOCK instead, again at the next poll. *)
Example scenario_B_block :
  map is_BLOCK
    (poll_events scenario_B_clock
       [Some youtube; None; Some youtube; Some youtube; Some youtube]
       (fresh_world scenario_B_clock strict_config strict_sites))
  = [false; false; false; true; true].
Proof. by vm_compute. Qed.

(** ** The claims at concrete inputs *)

Lemma ten_minute_clock_monotone : monotone ten_minute_clock.
Proof. intros n. unfold ten_minute_clock, minute. lia. Qed.

Lemma session_state_pairing_witness :
  let w0 := fresh_world ten_minute_clock default_config default_sites in
  let w := run ten_minute_clock [Poll (Some youtube); ShowStats; Poll None] w0 in
  new_monitor ten_minute_clock NoFile = Ok w0 ∧
  (current_site (self w) = None ↔ session_start (self w) = None).
Proof.
  split; [reflexivity|].
  apply (session_state_pairing ten_minute_clock NoFile
           (fresh_world ten_minute_clock default_config default_sites)
           [Poll (Some youtube); ShowStats; Poll None]).
  reflexivity.
Defined.

Lemma severity_selection_witness :
  let w0 := fresh_world ten_minute_clock default_config default_sites in
  let w := run ten_minute_clock [Poll (Some youtube)] w0 in
  let w1 := after_reset ten_minute_clock w in
  let session_time := session_minutes ten_minute_clock (20 * minute) w1 in
  let total := total_today ten_minute_clock youtube (20 * minute) w1 in
  let message := FriendlyReminder youtube session_time (60 - total)%Q in
  emitted (update_session ten_minute_clock (Some youtube) w)
    = Some (NUDGE info youtube message session_time total 60%Q) ∧
  (10 < 60 - total)%Q ∧
  (info = info ∧ message = FriendlyReminder youtube session_time (60 - total)%Q).
Proof.
  intros w0 w w1 session_time total message.
  assert (Hev : emitted (update_session ten_minute_clock (Some youtube) w)
                = Some (NUDGE info youtube message session_time total 60%Q))
    by (by vm_compute).
  assert (Hrem : (10 < 60 - total)%Q) by (by vm_compute).
  split; [exact Hev|]. split; [exact Hrem|].
  exact (proj2 (proj2 (proj2
    (severity_selection ten_minute_clock (Some youtube) w info youtube message
       session_time total 60%Q Hev))) Hrem).
Defined.

(** Claim C1, a defect of the code.  When no nudge has fired yet,
    [check_for_nudge] takes 999 minutes as the time since the last nudge
    ([# Default to large number]) and compares it with the interval.  With
    [nudge_interval = 1000], a session that has lasted 1000 minutes and has
    had no nudge meets both conditions of the claim, and the poll returns
    no NUDGE.  The same session with an interval of 999 gets its nudge, and
    so does a session with the interval of 1000 when the time of a nudge of
    an earlier session is kept in [last_nudge_time]. *)
Theorem first_nudge_lost_above_sentinel :
  (let w0 := fresh_world long_dwell_clock long_interval_config long_interval_sites in
   let w := run long_dwell_clock [Poll (Some youtube)] w0 in
   let w1 := after_reset long_dwell_clock w in
   new_monitor long_dwell_clock (Json long_interval_config) = Ok w0 ∧
   current_site (self w) = Some youtube ∧ session_start (self w) = Some 0 ∧
   tracked_sites (self w) !! youtube
     = Some (mkSiteConfig (Some 5000%Q) (Some 1000%Q) (Some false)) ∧
   last_nudge_time (self w) = None ∧
   (1000 <= session_minutes long_dwell_clock 0%Z w1)%Q ∧
   snd (update_session long_dwell_clock (Some youtube) w) = Ok None) ∧
  (let w0 := fresh_world long_dwell_clock sentinel_interval_config
               sentinel_interval_sites in
   let w := run long_dwell_clock [Poll (Some youtube)] w0 in
   last_nudge_time (self w) = None ∧
   is_NUDGE (emitted (update_session long_dwell_clock (Some youtube) w)) = true) ∧
  (let w0 := fresh_world after_nudge_clock two_interval_config two_interval_sites in
   let w := run after_nudge_clock
              [Poll (Some reddit); Poll (Some reddit); Poll (Some youtube)] w0 in
   let w1 := after_reset after_nudge_clock w in
   current_site (self w) = Some youtube ∧
   session_start (self w) = Some (10 * minute) ∧
   last_nudge_time (self w) = Some (10 * minute) ∧
   tracked_sites (self w) !! youtube
     = Some (mkSiteConfig (Some 5000%Q) (Some 1000%Q) (Some false)) ∧
   (session_minutes after_nudge_clock (10 * minute)%Z w1 == 1000)%Q ∧
   is_NUDGE (emitted (update_session after_nudge_clock (Some youtube) w)) = true).
Proof. repeat split; by vm_compute. Qed.

Lemma block_decision_witness :
  let w0 := fresh_world scenario_B_clock strict_config strict_sites in
  let w := run scenario_B_clock [Poll (Some youtube); Poll None; Poll (Some youtube)] w0 in
  let sc := mkSiteConfig (Some 60%Q) (Some 15%Q) (Some true) in
  let r := update_session scenario_B_clock (Some youtube) w in
  (current_site (self w) = Some youtube ∧ truthy (Some youtube) = true ∧
   session_start (self w) = Some (55 * minute) ∧
   tracked_sites (self w) !! youtube = Some sc) ∧
  is_BLOCK (emitted r) = true ∧
  last_nudge_time (self (fst r)) = last_nudge_time (self w) ∧
  self (fst r) = self w ∧
  is_BLOCK (emitted (update_session scenario_B_clock (Some youtube) (fst r))) = true.
Proof.
  intros w0 w sc r.
  assert (H1 : current_site (self w) = Some youtube) by reflexivity.
  assert (H2 : truthy (Some youtube) = true) by reflexivity.
  assert (H3 : session_start (self w) = Some (55 * minute)) by reflexivity.
  assert (H4 : tracked_sites (self w) !! youtube = Some sc) by (by vm_compute).
  split; [done|].
  destruct (block_decision scenario_B_clock (Some youtube) w youtube
              (55 * minute) sc 60%Q 15%Q H1 H2 eq_refl H3 H4 eq_refl eq_refl)
    as (Hiff & Hstate & Hagain).
  assert (Htotal : (60 <= total_today scenario_B_clock youtube (55 * minute)%Z
                            (after_reset scenario_B_clock w))%Q) by (by vm_compute).
  destruct (Hstate Htotal eq_refl) as (_ & Hlast & Hself).
  assert (Hb : is_BLOCK (emitted r) = true) by (apply Hiff; by split).
  refine (conj Hb (conj Hlast (conj (Hself _) (Hagain Hb _ _)))); by vm_compute.
Defined.

(** Claim C2 as stated fails: the site has [hard_block] set and a daily
    limit of 60 but no [nudge_interval]; 15 minutes into the second session
    the total is 70, and the poll raises [KeyError] at the lookup of
    [nudge_interval], which comes before the BLOCK test: no BLOCK. *)
Lemma block_without_nudge_interval_counterexample :
  let w0 := fresh_world scenario_B_clock no_interval_config no_interval_sites in
  let w := run scenario_B_clock [Poll (Some youtube); Poll None; Poll (Some youtube)] w0 in
  let w1 := after_reset scenario_B_clock w in
  let r := update_session scenario_B_clock (Some youtube) w in
  new_monitor scenario_B_clock (Json no_interval_config) = Ok w0 ∧
  current_site (self w) = Some youtube ∧
  session_start (self w) = Some (55 * minute) ∧
  tracked_sites (self w) !! youtube
    = Some (mkSiteConfig (Some 60%Q) None (Some true)) ∧
  (total_today scenario_B_clock youtube (55 * minute)%Z w1 == 70)%Q ∧
  (60 <= total_today scenario_B_clock youtube (55 * minute)%Z w1)%Q ∧
  snd r = Raise KeyError ∧ is_BLOCK (emitted r) = false.
Proof. repeat split; by vm_compute. Qed.

Lemma accumulator_nonneg_under_monotone_clock_witness :
  let w0 := fresh_world ten_minute_clock default_config default_sites in
  let w := run ten_minute_clock [Poll (Some youtube); Poll None] w0 in
  monotone ten_minute_clock ∧
  new_monitor ten_minute_clock NoFile = Ok w0 ∧
  daily_stats (self w) !! youtube = Some (0 + minutes_between (20 * minute)%Z (40 * minute)%Z)%Q ∧
  (0 <= 0 + minutes_between (20 * minute)%Z (40 * minute)%Z)%Q.
Proof.
  intros w0 w.
  assert (Hs : daily_stats (self w) !! youtube
               = Some (0 + minutes_between (20 * minute)%Z (40 * minute)%Z)%Q)
    by (by vm_compute).
  refine (conj ten_minute_clock_monotone (conj eq_refl (conj Hs _))).
  exact (proj2 (accumulator_nonneg_under_monotone_clock ten_minute_clock)
           ten_minute_clock_monotone NoFile w0
           [Poll (Some youtube); Poll None] eq_refl youtube _ Hs).
Defined.

(** Claim C3 as stated fails: when the clock jumps back ten minutes while a
    session is open, the session closes with a duration of -10 minutes,
    which is added unclamped, and the total for the site is negative. *)
Lemma negative_duration_counterexample :
  let w0 := fresh_world backward_clock default_config default_sites in
  let w := run backward_clock [Poll (Some youtube); Poll None] w0 in
  new_monitor backward_clock NoFile = Ok w0 ∧
  ∃ q, daily_stats (self w) !! youtube = Some q ∧ (q == -10)%Q ∧ (q < 0)%Q ∧
       In (Ended youtube q) (console w).
Proof.
  split; [reflexivity|]. eexists. split; [by vm_compute|].
  split; [by vm_compute|]. split; [by vm_compute|]. vm_compute. auto.
Qed.

Lemma nudge_state_kept_across_sessions_witness :
  let w0 := fresh_world ten_minute_clock default_config default_sites in
  let w := run ten_minute_clock [Poll (Some youtube); Poll (Some youtube)] w0 in
  let w' := fst (update_session ten_minute_clock (Some reddit) w) in
  let sc := mkSiteConfig (Some 30%Q) (Some 10%Q) (Some false) in
  let w1 := after_reset ten_minute_clock w' in
  monotone ten_minute_clock ∧
  current_site (self w') ≠ current_site (self w) ∧
  last_nudge_time (self w') = last_nudge_time (self w) ∧
  last_nudge_time (self w') = Some (50 * minute) ∧
  session_start (self w') = Some (80 * minute) ∧
  50 * minute ≤ 80 * minute ∧
  (nudge_gate ten_minute_clock 10 (80 * minute) w1 = true ↔
     (10 <= session_minutes ten_minute_clock (80 * minute)%Z w1)%Q) ∧
  (is_NUDGE (emitted (update_session ten_minute_clock (Some reddit) w')) = true ↔
     block_condition sc (total_today ten_minute_clock reddit (80 * minute) w1) 30 = false ∧
     (10 <= session_minutes ten_minute_clock (80 * minute)%Z w1)%Q ∧
     fits_float 30 = true).
Proof.
  intros w0 w w' sc w1.
  destruct (nudge_state_kept_across_sessions ten_minute_clock)
    as (Hkeep & Hle & Hgate & _).
  assert (Hne : current_site (self w') ≠ current_site (self w)) by (by vm_compute).
  assert (Hl : last_nudge_time (self w') = Some (50 * minute)) by (by vm_compute).
  assert (Hs : session_start (self w') = Some (80 * minute)) by (by vm_compute).
  assert (Hsc : tracked_sites (self w') !! reddit = Some sc) by (by vm_compute).
  pose proof (Hle ten_minute_clock_monotone NoFile w0
                [Poll (Some youtube); Poll (Some youtube)] (Some reddit)
                eq_refl Hne _ _ Hl Hs) as Hlast.
  refine (conj ten_minute_clock_monotone (conj Hne (conj (Hkeep _ _ Hne)
            (conj Hl (conj Hs (conj Hlast _)))))).
  apply (Hgate w' reddit (80 * minute) (50 * minute) sc 30%Q 10%Q);
    try done; by vm_compute.
Defined.

(** Claim C4 as stated fails: a nudge fires at 0:50 in a session on one site,
    the next poll detects another site and opens a session for it, and
    [last_nudge_time] still holds 0:50 in the new session. *)
Lemma last_nudge_time_not_reset_counterexample :
  let w0 := fresh_world ten_minute_clock default_config default_sites in
  let w := run ten_minute_clock [Poll (Some youtube); Poll (Some youtube)] w0 in
  let w' := fst (update_session ten_minute_clock (Some reddit) w) in
  new_monitor ten_minute_clock NoFile = Ok w0 ∧
  current_site (self w) = Some youtube ∧
  current_site (self w') = Some reddit ∧
  session_start (self w') = Some (80 * minute) ∧
  last_nudge_time (self w') = Some (50 * minute) ∧
  last_nudge_time (self w') ≠ None.
Proof. repeat split; by vm_compute. Qed.

(** Claim C5, a defect of the code.  [get_daily_summary] performs no rollover check.
    Thirty minutes are accumulated on day 0, the last poll of the day runs
    at 23:59:59, and a summary is requested half a second after midnight,
    before the next poll: it is dated day 1 and shows the thirty minutes of
    day 0, and the accumulator is left undiscarded. *)
Theorem summary_shows_previous_day :
  let w0 := fresh_world midnight_clock default_config default_sites in
  let w := run midnight_clock [Poll (Some youtube); Poll None; Poll None] w0 in
  let r := get_daily_summary midnight_clock w in
  new_monitor midnight_clock NoFile = Ok w0 ∧
  last_reset (self w) = 0 ∧
  date_of (midnight_clock (ticks w)) = 1 ∧
  (∃ summary e,
     snd r = Ok summary ∧ summary_date summary = 1 ∧
     sites summary !! youtube = Some e ∧ (time_spent e == 30)%Q) ∧
  last_reset (self (fst r)) = 0 ∧
  daily_stats (self (fst r)) = daily_stats (self w).
Proof.
  repeat split; try (by vm_compute).
  do 2 eexists. split; [by vm_compute|]. split; [by vm_compute|].
  split; by vm_compute.
Qed.

Lemma daily_total_closed_plus_live_witness :
  let w0 := fresh_world live_clock default_config default_sites in
  let acts := [Poll (Some youtube); Poll None; Poll (Some youtube)] in
  let w := (run_marked live_clock acts w0 0).1 in
  let mark := (run_marked live_clock acts w0 0).2 in
  new_monitor live_clock NoFile = Ok w0 ∧
  (stats_get (daily_stats (self w)) youtube ==
   closed_minutes youtube (drop mark (console w)))%Q ∧
  (closed_minutes youtube (drop mark (console w)) == 10)%Q.
Proof.
  intros w0 acts w mark.
  refine (conj eq_refl (conj _ _)); [|by vm_compute].
  exact (proj1 (proj2 (daily_total_closed_plus_live live_clock NoFile w0 acts eq_refl))
           youtube).
Defined.

(** Claim C6 as stated fails for the daily summary: after a closed session of
    ten minutes, with a session on the same site open for thirty minutes at
    the moment of the query, the summary reports ten minutes, not forty. *)
Lemma summary_omits_open_session_counterexample :
  let w0 := fresh_world live_clock default_config default_sites in
  let w := run live_clock [Poll (Some youtube); Poll None; Poll (Some youtube)] w0 in
  new_monitor live_clock NoFile = Ok w0 ∧
  current_site (self w) = Some youtube ∧
  session_start (self w) = Some (20 * minute) ∧
  (minutes_between (20 * minute)%Z (live_clock (ticks w)) == 30)%Q ∧
  (closed_minutes youtube (console w) == 10)%Q ∧
  ∃ summary e,
    snd (get_daily_summary live_clock w) = Ok summary ∧
    sites summary !! youtube = Some e ∧
    (time_spent e == 10)%Q ∧ ¬ (time_spent e == 10 + 30)%Q.
Proof.
  repeat split; try (by vm_compute).
  do 2 eexists. split; [by vm_compute|]. split; [by vm_compute|].
  split; by vm_compute.
Qed.

Lemma session_closure_witness :
  let w0 := fresh_world ten_minute_clock default_config default_sites in
  let w := run ten_minute_clock [Poll (Some youtube); Poll None; Poll (Some reddit)] w0 in
  new_monitor ten_minute_clock NoFile = Ok w0 ∧
  monotone ten_minute_clock ∧
  bracket None (console w) = Some (current_site (self w)) ∧
  opened_sessions (console w)
    = (ended_sessions (console w) + open_count (current_site (self w)))%nat ∧
  (∀ site duration, In (Ended site duration) (console w) → (0 <= duration)%Q).
Proof.
  intros w0 w.
  destruct (session_closure ten_minute_clock NoFile w0
              [Poll (Some youtube); Poll None; Poll (Some reddit)] eq_refl)
    as (Hb & Hcount & _ & _ & _ & Hnonneg).
  exact (conj eq_refl (conj ten_minute_clock_monotone
           (conj Hb (conj Hcount (Hnonneg ten_minute_clock_monotone))))).
Defined.

(** Claim C8 as stated fails: a session is open when the application quits;
    [quit_app] emits the final summary, which is empty, and stops; the
    session has been opened once and is never closed. *)
Lemma open_session_dropped_at_quit_counterexample :
  let w0 := fresh_world ten_minute_clock default_config default_sites in
  let w := run ten_minute_clock [Poll (Some youtube)] w0 in
  let r := quit_app ten_minute_clock w in
  new_monitor ten_minute_clock NoFile = Ok w0 ∧
  snd r = Ok (mkSummary 0 ∅) ∧
  console (fst r) = [Started youtube] ∧
  opened_sessions (console (fst r)) = 1%nat ∧
  ended_sessions (console (fst r)) = 0%nat ∧
  current_site (self (fst r)) = Some youtube ∧
  daily_stats (self (fst r)) = ∅.
Proof. repeat split; by vm_compute. Qed.

Lemma load_config_accepts_any_limits_witness :
  cfg_tracked_sites bad_config = Some bad_sites ∧
  bad_sites !! youtube = Some (mkSiteConfig (Some 0%Q) (Some (-5)%Q) (Some false)) ∧
  load_config (Json bad_config) = (Json bad_config, Ok (bad_config, bad_sites)) ∧
  tracked_sites
    (self (run ten_minute_clock [Poll (Some youtube); Poll (Some youtube)]
             (fresh_world ten_minute_clock bad_config bad_sites))) = bad_sites.
Proof.
  destruct (load_config_accepts_any_limits ten_minute_clock bad_config bad_sites
              eq_refl) as (Hload & _ & Hrun).
  refine (conj eq_refl (conj _ (conj Hload (proj2 (Hrun _))))).
  by vm_compute.
Defined.

(** The other files: what cannot be opened, created or parsed, or is not a
    JSON object with [tracked_sites], stops [ActivityMonitor()] with an
    exception and is left as it was. *)
Example load_config_error_paths :
  load_config Unreadable = (Unreadable, Raise OSError) ∧
  load_config Unwritable = (Unwritable, Raise OSError) ∧
  load_config NotJson = (NotJson, Raise JSONDecodeError) ∧
  load_config NotObject = (NotObject, Raise TypeError) ∧
  load_config (Json (mkConfig None None))
    = (Json (mkConfig None None), Raise KeyError) ∧
  new_monitor ten_minute_clock NotObject = Raise TypeError ∧
  load_config NoFile = (Json default_config, Ok (default_config, default_sites)).
Proof. repeat split; reflexivity. Qed.

(** Claim C9 as stated fails: a configuration whose only site has a daily
    limit of 0 and a nudge interval of -5 is loaded without error and the
    monitor starts with it. *)
Lemma invalid_limits_accepted_counterexample :
  bad_sites !! youtube = Some (mkSiteConfig (Some 0%Q) (Some (-5)%Q) (Some false)) ∧
  ¬ valid_site (mkSiteConfig (Some 0%Q) (Some (-5)%Q) (Some false)) ∧
  snd (load_config (Json bad_config)) = Ok (bad_config, bad_sites) ∧
  new_monitor ten_minute_clock (Json bad_config)
    = Ok (fresh_world ten_minute_clock bad_config bad_sites).
Proof.
  split; [by vm_compute|]. split; [|by split].
  unfold valid_site. simpl. intros [H _]. by vm_compute in H.
Qed.

(** * The rest of the code

    Detection, the daily summary, the notifier, the tray application and
    the activity log. *)

(** ** Site detection *)

Lemma append_cons (c : Ascii.ascii) (p post : string) :
  String.append (String c p) post = String c (String.append p post).
Proof. reflexivity. Qed.

Lemma prefix_spec (p s : string) :
  String.prefix p s = true ↔ ∃ post, s = String.append p post.
Proof.
  revert s. induction p as [|a p IH]; intros s.
  - destruct s; simpl; (split; [eauto|done]).
  - destruct s as [|b s]; simpl.
    { split; [done|]. intros [post H]. by rewrite append_cons in H. }
    destruct (Ascii.ascii_dec a b) as [->|Hne].
    + rewrite IH. split; intros [post H]; exists post;
        rewrite append_cons in *; congruence.
    + split; [done|]. intros [post H]. rewrite append_cons in H. congruence.
Qed.

Lemma str_in_spec (needle hay : string) :
  str_in needle hay = true ↔
  ∃ pre post, hay = String.append pre (String.append needle post).
Proof.
  induction hay as [|c hay IH].
  - change (str_in needle EmptyString)
      with (String.prefix needle EmptyString || false).
    rewrite orb_false_r, prefix_spec. split.
    + intros [post H]. by exists EmptyString, post.
    + intros (pre & post & H). destruct pre; [by exists post|done].
  - change (str_in needle (String c hay))
      with (String.prefix needle (String c hay) || str_in needle hay).
    rewrite orb_true_iff, prefix_spec, IH. split.
    + intros [[post H]|(pre & post & H)].
      * by exists EmptyString, post.
      * exists (String c pre), post. by rewrite append_cons, H.
    + intros (pre & post & H). destruct pre as [|b pre];
        [change (String.append EmptyString ?x) with x in H
        |rewrite append_cons in H].
      * left. by exists post.
      * right. exists pre, post. congruence.
Qed.

Lemma str_in_empty (hay : string) : str_in EmptyString hay = true.
Proof. by destruct hay. Qed.

Lemma str_in_cons (needle : string) (c : Ascii.ascii) (hay : string) :
  str_in needle (String c hay)
  = String.prefix needle (String c hay) || str_in needle hay.
Proof. reflexivity. Qed.

Lemma remove_dot_com_cons (c : Ascii.ascii) (s : string) :
  remove_dot_com 0 (String c s)
  = if String.prefix ".com" (String c s) then remove_dot_com 3 s
    else String c (remove_dot_com 0 s).
Proof. reflexivity. Qed.

Lemma remove_dot_com_absent (s : string) :
  str_in ".com" s = false → remove_dot_com 0 s = s.
Proof.
  induction s as [|c s IH]; [done|].
  rewrite str_in_cons, remove_dot_com_cons.
  intros [H1 H2]%orb_false_iff. by rewrite H1, IH.
Qed.

Lemma append_nil (s : string) : String.append EmptyString s = s.
Proof. reflexivity. Qed.

Lemma append_assoc (a b c : string) :
  String.append (String.append a b) c = String.append a (String.append b c).
Proof.
  induction a as [|x a IH]; [done|]. by rewrite !append_cons, IH.
Qed.

Lemma append_length (a b : string) :
  String.length (String.append a b) = (String.length a + String.length b)%nat.
Proof.
  induction a as [|x a IH]; [done|]. rewrite append_cons. simpl. by rewrite IH.
Qed.

(** A prefix test looks at the first characters only. *)
Lemma prefix_append (p u v : string) :
  (String.length p ≤ String.length u)%nat →
  String.prefix p (String.append u v) = String.prefix p u.
Proof.
  revert u. induction p as [|a p IH]; intros u Hlen.
  - destruct u; [by destruct v|done].
  - destruct u as [|b u]; [simpl in Hlen; lia|].
    rewrite append_cons. simpl.
    destruct (Ascii.ascii_dec a b); [|done]. apply IH. simpl in Hlen. lia.
Qed.

Lemma prefix_dot_com_append (c : Ascii.ascii) (a b : string) :
  String.prefix ".com" (String c (String.append a (String.append ".com" b)))
  = String.prefix ".com" (String c (String.append a ".co")).
Proof.
  rewrite <- !(append_cons c a).
  change (String.append ".com" b) with (String.append ".co" (String.append "m" b)).
  rewrite <- append_assoc. apply prefix_append.
  rewrite append_length. simpl. lia.
Qed.

Lemma replace_dot_com_first (a b : string) :
  str_in ".com" (String.append a ".co") = false →
  replace_dot_com (String.append a (String.append ".com" b))
  = String.append a (replace_dot_com b).
Proof.
  unfold replace_dot_com. induction a as [|c a IH]; intros H.
  - rewrite !append_nil.
    rewrite (append_cons _ "com" b), remove_dot_com_cons.
    by rewrite (proj2 (prefix_spec ".com" _)) by (by exists b).
  - rewrite (append_cons c a), str_in_cons in H.
    apply orb_false_iff in H as [H1 H2].
    rewrite !(append_cons c a), remove_dot_com_cons.
    by rewrite prefix_dot_com_append, H1, IH.
Qed.

Lemma first_dot_com (s : string) :
  str_in ".com" s = true →
  ∃ a b, s = String.append a (String.append ".com" b) ∧
         str_in ".com" (String.append a ".co") = false.
Proof.
  induction s as [|c s IH]; [done|].
  rewrite str_in_cons. destruct (String.prefix ".com" (String c s)) eqn:Hp.
  - intros _. apply prefix_spec in Hp as [post ->].
    by exists EmptyString, post.
  - simpl. intros (a & b & -> & Ha)%IH. exists (String c a), b.
    split; [done|]. rewrite (append_cons c a), str_in_cons, Ha, orb_false_r.
    by rewrite <- (prefix_dot_com_append c a b).
Qed.

Lemma replace_dot_com_unique (f : string → string) :
  (∀ s, str_in ".com" s = false → f s = s) →
  (∀ a b, str_in ".com" (String.append a ".co") = false →
     f (String.append a (String.append ".com" b)) = String.append a (f b)) →
  ∀ s, f s = replace_dot_com s.
Proof.
  intros Habsent Hfirst s.
  remember (String.length s) as n eqn:Hn. revert s Hn.
  induction n as [n IH] using lt_wf_ind. intros s ->.
  destruct (str_in ".com" s) eqn:Hs.
  - apply first_dot_com in Hs as (a & b & -> & Ha).
    rewrite Hfirst, replace_dot_com_first by done. f_equal.
    apply (IH (String.length b)); [|done].
    rewrite !append_length. simpl. lia.
  - rewrite Habsent by done. unfold replace_dot_com.
    by rewrite remove_dot_com_absent.
Qed.

Lemma detect_current_site_Some keys title site :
  detect_current_site keys title = Some site ↔
  ∃ before after,
    keys = before ++ site :: after ∧
    Forall (λ k, site_matches title k = false) before ∧
    site_matches title site = true.
Proof.
  induction keys as [|k keys IH]; simpl.
  - split; [done|]. intros (before & after & H & _). by destruct before.
  - destruct (site_matches title k) eqn:Hk.
    + split.
      * intros [= ->]. by exists [], keys.
      * intros (before & after & H & HF & Hs).
        destruct before as [|b before]; simpl in H; [congruence|].
        injection H as -> _. apply Forall_cons in HF as [HF _]. congruence.
    + rewrite IH. split.
      * intros (before & after & -> & HF & Hs). exists (k :: before), after.
        split; [done|]. split; [by constructor|done].
      * intros (before & after & H & HF & Hs).
        destruct before as [|b before]; simpl in H; [congruence|].
        injection H as -> ->. apply Forall_cons in HF as [_ HF]. eauto.
Qed.

Lemma detect_current_site_None keys title :
  detect_current_site keys title = None ↔
  Forall (λ k, site_matches title k = false) keys.
Proof.
  induction keys as [|k keys IH]; simpl; [done|].
  destruct (site_matches title k) eqn:Hk.
  - split; [done|]. intros [H _]%Forall_cons. congruence.
  - rewrite IH. split; [by constructor|]. by intros [_ H]%Forall_cons.
Qed.

Lemma detect_current_site_elem keys title site :
  detect_current_site keys title = Some site → site ∈ keys.
Proof.
  intros (before & after & -> & _)%detect_current_site_Some.
  apply elem_of_app. right. by left.
Qed.

(** ** The activity log *)









Section More.
Variable clock : nat → datetime.

Ltac unfold_monitor :=
  unfold update_session, reset_if_new_day, _end_session, check_for_nudge,
    get_daily_summary, item, to_float, now, get_self, modify_self, print,
    bind, ret, raise.

(** ** Polls with detection *)

Lemma update_session_tracked_inv d w :
  (∀ site, d = Some site → is_Some (tracked_sites (self w) !! site)) →
  tracked_inv w → tracked_inv (fst (update_session clock d w)).
Proof.
  intros Hd [Hc Hs]. unfold tracked_inv.
  rewrite update_session_tracked_sites. split.
  - intros site. unfold_monitor. simpl.
    repeat (case_match; simpl in *; simplify_eq); simpl; intros; simplify_eq; eauto.
  - intros site.
    destruct (update_session_stats clock d w)
      as [(-> & _)|(s & started & extra & Hcs & _ & -> & _)].
    + unfold after_reset. case_bool_decide; simpl; [|apply Hs].
      rewrite lookup_empty. by intros [? ?].
    + rewrite lookup_insert. case_decide as E; [subst; intros _; by apply Hc|].
      unfold after_reset. case_bool_decide; simpl; [|apply Hs].
      rewrite lookup_empty. by intros [? ?].
Qed.

Lemma run_tracked keys inputs w :
  (∀ k, k ∈ keys → is_Some (tracked_sites (self w) !! k)) →
  tracked_inv w →
  let w' := run clock (map (to_action keys) inputs) w in
  tracked_sites (self w') = tracked_sites (self w) ∧ tracked_inv w'.
Proof.
  revert w. induction inputs as [|i inputs IH]; intros w Hk Hinv; [done|].
  simpl.
  assert (Hts : tracked_sites (self (step clock (to_action keys i) w))
                = tracked_sites (self w)) by apply step_tracked_sites.
  destruct (IH (step clock (to_action keys i) w)) as [IH1 IH2].
  - by rewrite Hts.
  - destruct i as [p|]; simpl.
    + apply update_session_tracked_inv; [|done].
      intros site Hsite. by apply Hk, (detect_current_site_elem _ _ _ Hsite).
    + destruct (get_daily_summary_frame clock w) as (He & _).
      unfold tracked_inv. by rewrite He.
  - split; [congruence|done].
Qed.

Lemma check_for_nudge_Ok w :
  complete_config (tracked_sites (self w)) →
  limits_convert (tracked_sites (self w)) →
  (∀ site, current_site (self w) = Some site →
           is_Some (tracked_sites (self w) !! site)) →
  ∃ o, snd (check_for_nudge clock w) = Ok o.
Proof.
  intros Hcomplete Hfit Hc.
  destruct (current_site (self w)) as [site|] eqn:Hcs;
    [|unfold_monitor; simpl; rewrite Hcs; eauto].
  destruct (session_start (self w)) as [started|] eqn:Hss;
    [|unfold_monitor; simpl; rewrite Hcs, Hss; eauto].
  destruct (truthy (Some site)) eqn:Ht;
    [|unfold_monitor; simpl in *; rewrite Hcs, Hss, Ht; eauto].
  destruct (Hc site eq_refl) as [sc Hsc].
  destruct (Hcomplete site sc Hsc) as [[L HL] [I HI]].
  rewrite (check_for_nudge_eq clock w site started sc L I) by done. simpl.
  destruct (block_condition _ _ _); [eauto|].
  destruct (nudge_gate _ _ _ _); [|eauto]. simpl.
  rewrite (Hfit site sc L Hsc HL). eauto.
Qed.

Lemma update_session_Ok d w :
  complete_config (tracked_sites (self w)) →
  limits_convert (tracked_sites (self w)) →
  (∀ site, current_site (self w) = Some site →
           is_Some (tracked_sites (self w) !! site)) →
  ∃ o, snd (update_session clock d w) = Ok o.
Proof.
  intros Hcomplete Hfit Hc. rewrite update_session_eq. simpl.
  destruct (truthy d && _); [destruct d; eauto|].
  destruct (truthy (current_site (self w)) && _);
    [destruct d; [destruct (truthy _)|]; eauto|].
  destruct (truthy (current_site (self w))); [|eauto].
  destruct (after_reset_frame clock w) as (_ & Hc1 & _ & _ & Hts1 & _).
  apply check_for_nudge_Ok; by rewrite ?Hts1, ?Hc1.
Qed.

Lemma summary_entry_fails ts site minutes :
  (∃ e, summary_entry ts site minutes = Raise e) ↔ entry_fails ts site.
Proof.
  unfold summary_entry, entry_fails.
  destruct (ts !! site) as [sc|]; [|split; [done|eauto]].
  destruct (daily_limit sc) as [l|]; [|split; [done|eauto]].
  destruct (Qgt_bool l 0) eqn:Hpos; simpl.
  - apply Qgt_bool_iff in Hpos. destruct (fits_float l); simpl.
    + split; [by intros [? ?]|by intros [_ ?]].
    + split; [done|eauto].
  - split; [by intros [? ?]|]. intros [Hl _].
    apply Qgt_bool_iff in Hl. congruence.
Qed.

Lemma get_daily_summary_Ok w :
  complete_config (tracked_sites (self w)) →
  limits_convert (tracked_sites (self w)) →
  (∀ site, is_Some (daily_stats (self w) !! site) →
           is_Some (tracked_sites (self w) !! site)) →
  ∃ s, snd (get_daily_summary clock w) = Ok s.
Proof.
  intros Hcomplete Hfit Hs.
  destruct (snd (get_daily_summary clock w)) as [summary|e] eqn:Hr; [eauto|].
  exfalso.
  apply (proj1 (get_daily_summary_raises clock w)) in Hr
    as (site & minutes & Hm & He).
  assert (Hfails : entry_fails (tracked_sites (self w)) site)
    by (apply (summary_entry_fails _ _ minutes); eauto).
  unfold entry_fails in Hfails.
  destruct (Hs site (mk_is_Some _ _ Hm)) as [sc Hsc]. rewrite Hsc in Hfails.
  destruct (Hcomplete site sc Hsc) as [[l Hl] _]. rewrite Hl in Hfails.
  destruct Hfails as [_ Hf]. rewrite (Hfit site sc l Hsc Hl) in Hf. done.
Qed.

Lemma detect_blind keys :
  Forall (λ k, replace_dot_com k ≠ EmptyString) keys →
  detect_current_site keys EmptyString = None.
Proof.
  intros HF. apply detect_current_site_None.
  eapply Forall_impl; [exact HF|]. intros k Hk. unfold site_matches.
  assert (Hin : ∀ s, s ≠ EmptyString → str_in s EmptyString = false)
    by (by intros [|c s]).
  rewrite !Hin; [done| |done]. by intros ->.
Qed.

Lemma update_session_idle d w :
  truthy d = false → idle w →
  idle (fst (update_session clock d w)) ∧ emitted (update_session clock d w) = None.
Proof.
  intros Hd (Hc & Hs & Hst & Hco). rewrite update_session_eq. simpl.
  rewrite Hd, Hc. simpl. unfold idle, after_reset, emitted.
  case_bool_decide; simpl; by rewrite ?Hc, ?Hs, ?Hst, ?Hco.
Qed.

Lemma update_session_last_reset d w :
  last_reset (self (fst (update_session clock d w)))
  = last_reset (self (after_reset clock w)).
Proof.
  unfold_monitor. unfold after_reset. simpl.
  repeat (case_match; simpl in *; simplify_eq); simpl; done.
Qed.

(** ** Figures of the events *)

Lemma update_session_NUDGE d w severity site message session_time total limit :
  emitted (update_session clock d w)
    = Some (NUDGE severity site message session_time total limit) →
  let w1 := after_reset clock w in
  ∃ started sc I,
    current_site (self w) = Some site ∧ session_start (self w) = Some started ∧
    tracked_sites (self w) !! site = Some sc ∧
    daily_limit sc = Some limit ∧ nudge_interval sc = Some I ∧
    session_time = session_minutes clock started w1 ∧
    total = total_today clock site started w1 ∧
    block_condition sc total limit = false ∧
    (I <= session_time)%Q ∧
    (severity, message) = select_severity site limit total session_time.
Proof.
  intros Hev w1. destruct (update_session_emits clock d w _ Hev) as (_ & _ & Heq).
  rewrite Heq in Hev.
  destruct (check_for_nudge_emits clock _ _ Hev)
    as (s & started & sc & L & I & Hc & Ht & Hs & Hsc & HL & HI).
  destruct (after_reset_frame clock w) as (_ & Hc1 & Hs1 & _ & Hts1 & _).
  rewrite (check_for_nudge_eq clock _ s started sc L I) in Hev by done.
  simpl in Hev. unfold emitted in Hev. fold w1 in Hev.
  destruct (block_condition _ _ _) eqn:Hb; [done|].
  destruct (nudge_gate clock I started w1) eqn:Hg; [|done].
  apply nudge_gate_true in Hg as [Hg _].
  simpl in Hev. destruct (fits_float L); [|done].
  injection Hev as <- <- <- <- <- <-.
  exists started, sc, I. rewrite <- Hc1, <- Hs1, <- Hts1.
  repeat split; try done.
  by destruct (select_severity _ _ _ _).
Qed.

(** ** Notifier and tray *)

Lemma send_notification_recorded nt ok ttl msg tmo d :
  recorded ok d (send_notification nt ok ttl msg tmo d)
    (mkNotification ttl msg (notifier_app_name nt) tmo (icon_path nt)).
Proof. unfold recorded, send_notification. by destruct ok. Qed.

Lemma select_severity_info site L total csm sev msg :
  (sev, msg) = select_severity site L total csm →
  (sev = info ↔ (10 < L - total)%Q).
Proof.
  unfold select_severity.
  destruct (Qle_bool (L - total) 0) eqn:E0;
    [apply Qle_bool_iff in E0|apply (Qge_bool_false 0 (L - total)) in E0];
    (destruct (Qle_bool (L - total) 10) eqn:E10;
      [apply Qle_bool_iff in E10|apply (Qge_bool_false 10 (L - total)) in E10]);
    intros [= -> ->]; (split; [try done; lra|try done; intros; lra]).
Qed.

Lemma tray_step_world keys i t :
  running t = true → icon_running t = true → is_quit i = false →
  let t' := tray_step clock keys i t in
  world t' = step clock (tray_action keys i) (world t) ∧
  running t' = true ∧ icon_running t' = true.
Proof.
  intros Hr Hi Hq. destruct i as [p ok|ok|ok]; [| |done]; simpl; rewrite ?Hr, Hi; simpl.
  - unfold monitor_loop_turn.
    destruct (update_session _ _ _) as [w [[nudge|]|e]]; by simpl.
  - unfold show_stats. destruct (get_daily_summary _ _) as [w [summary|e]]; by simpl.
Qed.

(** ** Further properties of the code *)

(** When every tracked site has a [daily_limit] and a [nudge_interval],
    and every daily limit converts to a float (every float does, and every
    int below [2^1024 - 2^970] in magnitude), no poll and no summary of a
    monitor driven by [detect_current_site] ever raises: the session and
    the accumulator only ever hold keys of [tracked_sites]. *)
Theorem polls_never_raise_with_complete_config file w0 keys inputs :
  new_monitor clock file = Ok w0 →
  (∀ k, k ∈ keys → is_Some (tracked_sites (self w0) !! k)) →
  complete_config (tracked_sites (self w0)) →
  limits_convert (tracked_sites (self w0)) →
  let w := run clock (map (to_action keys) inputs) w0 in
  (∀ p, ∃ o,
     snd (update_session clock (detect_current_site keys (window_title p)) w) = Ok o) ∧
  (∃ s, snd (get_daily_summary clock w) = Ok s).
Proof.
  intros Hnew Hk Hcomplete Hfit w.
  destruct (new_monitor_world clock file w0 Hnew) as (cfg & ts & ->).
  destruct (run_tracked keys inputs _ Hk) as [Hts [Hc Hs]].
  { split; intros site; simpl; [done|]. rewrite lookup_empty. by intros [? ?]. }
  fold w in Hts, Hc, Hs. split.
  - intros p. apply update_session_Ok; [by rewrite Hts|by rewrite Hts|done].
  - apply get_daily_summary_Ok; [by rewrite Hts|by rewrite Hts|done].
Qed.

(** Without win32gui, or when the window probe raises, the title is empty
    and no site is detected (as long as no key is made of [.com]
    occurrences only): whatever the number of polls, no session is ever
    opened, nothing is accumulated or printed, no event is emitted and the
    summary is empty. *)
Theorem blind_probe_tracks_nothing file w0 keys inputs :
  new_monitor clock file = Ok w0 →
  Forall (λ k, replace_dot_com k ≠ EmptyString) keys →
  Forall (λ i, ∀ p, i = Window p → window_title p = EmptyString) inputs →
  let w := run clock (map (to_action keys) inputs) w0 in
  current_site (self w) = None ∧ session_start (self w) = None ∧
  daily_stats (self w) = ∅ ∧ console w = [] ∧
  (∀ p, window_title p = EmptyString →
        emitted (update_session clock (detect_current_site keys (window_title p)) w)
        = None) ∧
  snd (get_daily_summary clock w)
    = Ok (mkSummary (date_of (clock (ticks w))) ∅).
Proof.
  intros Hnew Hkeys Hblind w.
  destruct (new_monitor_world clock file w0 Hnew) as (cfg & ts & ->).
  assert (Hidle : idle w).
  { subst w. set (w0 := mkWorld _ _ _). assert (H0 : idle w0) by done.
    revert H0. generalize w0. clear w0.
    induction Hblind as [|i inputs Hi _ IH]; intros w Hw; [done|].
    simpl. apply IH. destruct i as [p|]; simpl.
    - rewrite (Hi p eq_refl), (detect_blind keys Hkeys).
      by apply update_session_idle.
    - destruct (get_daily_summary_frame clock w) as (He & Hc & _).
      unfold idle. by rewrite He, Hc. }
  destruct Hidle as (Hc & Hs & Hst & Hco). repeat split; try done.
  - intros p ->. rewrite (detect_blind keys Hkeys).
    by apply update_session_idle.
  - by rewrite get_daily_summary_eq, Hst, map_to_list_empty.
Qed.

(** [update_session] raises on a poll of an ongoing session only, and
    nothing but [KeyError] or [OverflowError]; nothing is printed by a poll
    that raises.  It raises [KeyError] exactly when the configuration of
    the current site is missing, or lacks [daily_limit] or [nudge_interval]
    (the interval is read before the BLOCK check, so its absence also
    suppresses the BLOCK); the monitor is then as the day check left it.
    It raises [OverflowError] exactly when the BLOCK condition fails, the
    nudge gate passes and [daily_limit] does not convert to a float; the
    time of the nudge has then been stored in [last_nudge_time] already,
    although no nudge is returned. *)
Theorem poll_exceptions :
  (∀ d w e,
     snd (update_session clock d w) = Raise e →
     (e = KeyError ∨ e = OverflowError) ∧
     truthy (current_site (self w)) = true ∧ d = current_site (self w) ∧
     console (fst (update_session clock d w)) = console w ∧
     (e = KeyError →
      self (fst (update_session clock d w)) = self (after_reset clock w))) ∧
  (∀ w site started,
     current_site (self w) = Some site → truthy (Some site) = true →
     session_start (self w) = Some started →
     (snd (update_session clock (Some site) w) = Raise KeyError ↔
      match tracked_sites (self w) !! site with
      | Some sc => daily_limit sc = None ∨ nudge_interval sc = None
      | None => True
      end)) ∧
  (∀ w site started sc L I,
     current_site (self w) = Some site → truthy (Some site) = true →
     session_start (self w) = Some started →
     tracked_sites (self w) !! site = Some sc →
     daily_limit sc = Some L → nudge_interval sc = Some I →
     let w1 := after_reset clock w in
     let r := update_session clock (Some site) w in
     (snd r = Raise OverflowError ↔
        block_condition sc (total_today clock site started w1) L = false ∧
        nudge_gate clock I started w1 = true ∧ fits_float L = false) ∧
     (snd r = Raise OverflowError → fst r = after_nudge clock w1)).
Proof.
  split; [|split].
  - intros d w e He.
    destruct (update_session_raises clock d w e He) as (Ht & Hd & Heq).
    rewrite Heq in He |- *.
    destruct (after_reset_frame clock w) as (Hco1 & _).
    rewrite <- Hco1. revert He. unfold_monitor. simpl.
    repeat (case_match; simpl in *; simplify_eq); simpl; intros; simplify_eq;
      repeat split; try done; try (by left); try (by right).
  - intros w site started Hc Ht Hs.
    rewrite update_session_ongoing by (by rewrite Hc).
    destruct (after_reset_frame clock w) as (_ & Hc1 & Hs1 & _ & Hts1 & _).
    unfold_monitor. simpl. rewrite Hc1, Hs1, Hts1, Hc, Hs.
    simpl in Ht. rewrite Ht.
    destruct (tracked_sites (self w) !! site) as [sc|]; simpl; [|done].
    destruct (daily_limit sc) as [L|]; simpl; [|by split; [left|]].
    destruct (nudge_interval sc) as [I|]; simpl; [|by split; [right|]].
    split; [|by intros [|]].
    repeat (case_match; simpl in *; simplify_eq); done.
  - intros w site started sc L I Hc Ht Hs Hsc HL HI w1 r.
    destruct (after_reset_frame clock w) as (_ & Hc1 & Hs1 & _ & Hts1 & _).
    fold w1 in Hc1, Hs1, Hts1.
    assert (Hr : r = check_for_nudge clock w1).
    { subst r. apply update_session_ongoing; by rewrite Hc. }
    rewrite Hr, (check_for_nudge_eq clock w1 site started sc L I) by congruence.
    simpl.
    destruct (block_condition _ _ _); simpl; [by split; [split; [|intros []]|]|].
    destruct (nudge_gate _ _ _ _); simpl;
      [|by split; [split; [|intros (_ & ? & _)]|]].
    destruct (fits_float L); simpl; [|done].
    by split; [split; [|intros (_ & _ & ?)]|].
Qed.

(** Every poll starts with the day check.  When the first clock reading of
    the poll falls on another date than [last_reset], the accumulator is
    emptied and [last_reset] becomes the date of the next reading; the only
    total left after the poll is the one of the session that this poll
    closes, whose whole duration, the part before midnight included, counts
    for the new day.  Otherwise [last_reset] stays and no site loses its
    entry. *)
Theorem update_session_rollover d w :
  let w' := fst (update_session clock d w) in
  (date_of (clock (ticks w)) ≠ last_reset (self w) →
     last_reset (self w') = date_of (clock (S (ticks w))) ∧
     ∀ site q, daily_stats (self w') !! site = Some q →
       current_site (self w) = Some site ∧
       ∃ started,
         session_start (self w) = Some started ∧
         q = (0 + minutes_between started (clock (S (S (ticks w)))))%Q) ∧
  (date_of (clock (ticks w)) = last_reset (self w) →
     last_reset (self w') = last_reset (self w) ∧
     ∀ site, is_Some (daily_stats (self w) !! site) →
             is_Some (daily_stats (self w') !! site)).
Proof.
  simpl. rewrite update_session_last_reset. split; intros Hdate.
  - split; [unfold after_reset; by rewrite bool_decide_true|].
    intros site q.
    destruct (update_session_stats clock d w)
      as [(-> & _)|(s & started & extra & Hcs & Hss & -> & _)];
      unfold after_reset; rewrite bool_decide_true by done; simpl.
    + by rewrite lookup_empty.
    + rewrite lookup_insert. case_decide as E; [|by rewrite lookup_empty].
      subst s. intros [= <-]. split; [done|]. eauto.
  - split; [unfold after_reset; by rewrite bool_decide_false by (by intros [])|].
    intros site.
    destruct (update_session_stats clock d w)
      as [(-> & _)|(s & started & extra & _ & _ & -> & _)];
      unfold after_reset; rewrite bool_decide_false by (by intros []); simpl.
    + done.
    + rewrite lookup_insert. case_decide; eauto.
Qed.

(** A site with [hard_block] set never receives the exceeded-daily-limit
    nudge: every NUDGE emitted for it has a total below the limit, because
    at or above the limit the poll emits a BLOCK instead. *)
Theorem hard_block_site_never_exceeded d w severity site message session_time
    total limit sc :
  emitted (update_session clock d w)
    = Some (NUDGE severity site message session_time total limit) →
  tracked_sites (self w) !! site = Some sc → hard_block sc = Some true →
  (total < limit)%Q ∧ ∀ a b c, message ≠ ExceededDailyLimit a b c.
Proof.
  intros Hev Hsc Hhb.
  destruct (update_session_NUDGE _ _ _ _ _ _ _ _ Hev)
    as (started & sc' & I & _ & _ & Hsc' & _ & _ & _ & _ & Hb & _ & Hsel).
  rewrite Hsc in Hsc'. injection Hsc' as <-.
  assert (Hlt : (total < limit)%Q).
  { unfold block_condition in Hb. rewrite Hhb in Hb. simpl in Hb.
    rewrite andb_true_r in Hb. by apply Qge_bool_false in Hb. }
  split; [done|]. intros a b c ->. revert Hsel. unfold select_severity.
  destruct (Qle_bool (limit - total) 0) eqn:E; [|by destruct (Qle_bool _ 10)].
  apply Qle_bool_iff in E. lra.
Qed.

(** Under a clock that never runs backwards, every NUDGE of a running
    monitor reports a session time that is at least the nudge interval of
    its site and not negative, and a total for today that is at least the
    session time. *)
Theorem nudge_reports_consistent_figures file w0 acts d severity site message
    session_time total limit :
  monotone clock → new_monitor clock file = Ok w0 →
  emitted (update_session clock d (run clock acts w0))
    = Some (NUDGE severity site message session_time total limit) →
  ∃ sc I,
    tracked_sites (self (run clock acts w0)) !! site = Some sc ∧
    nudge_interval sc = Some I ∧ daily_limit sc = Some limit ∧
    (I <= session_time)%Q ∧ (0 <= session_time)%Q ∧ (session_time <= total)%Q.
Proof.
  intros Hm Hnew Hev. set (w := run clock acts w0) in *.
  destruct (update_session_NUDGE _ _ _ _ _ _ _ _ Hev)
    as (started & sc & I & _ & Hs & Hsc & HL & HI & -> & -> & _ & HI' & _).
  exists sc, I. repeat split; try done.
  - destruct (reachable_past_inv clock file w0 acts Hnew) as [Hpast _].
    destruct (Hpast _ Hs) as (k & Hk & ->).
    destruct (after_reset_frame clock w) as (_ & _ & _ & _ & _ & Hk1).
    apply minutes_between_nonneg, monotone_le; [done|]. fold w in Hk. lia.
  - destruct (reachable_nonneg clock file w0 acts Hm Hnew) as [Hn _].
    assert (Hn1 : stats_nonneg (daily_stats (self (after_reset clock w)))).
    { destruct (after_reset_stats clock w) as (_ & [-> | ->]); [done|].
      intros s q. by rewrite lookup_empty. }
    pose proof (stats_get_nonneg _ site Hn1).
    unfold total_today. lra.
Qed.

(** [get_daily_summary] never changes the monitor.  It raises exactly
    when the entry of some site of today's totals cannot be computed, and
    what it raises is the exception of such a site: [KeyError] for a site
    without configuration or without [daily_limit], [OverflowError] for a
    positive limit that does not convert to a float.  Otherwise the summary
    is dated with the clock reading of the call and has one entry for each
    site of the totals, sites with zero minutes included, and for no other
    site. *)
Theorem get_daily_summary_entries w :
  let r := get_daily_summary clock w in
  self (fst r) = self w ∧ console (fst r) = console w ∧
  ((∃ e, snd r = Raise e) ↔
   ∃ site, is_Some (daily_stats (self w) !! site) ∧
           entry_fails (tracked_sites (self w)) site) ∧
  (∀ e, snd r = Raise e →
     ∃ site, is_Some (daily_stats (self w) !! site) ∧
       (e = KeyError ∧
        match tracked_sites (self w) !! site with
        | Some sc => daily_limit sc = None
        | None => True
        end ∨
        e = OverflowError ∧
        ∃ sc l, tracked_sites (self w) !! site = Some sc ∧
                daily_limit sc = Some l ∧ (0 < l)%Q ∧ fits_float l = false)) ∧
  (∀ summary, snd r = Ok summary →
     summary_date summary = date_of (clock (ticks w)) ∧
     ∀ site, is_Some (sites summary !! site)
             ↔ is_Some (daily_stats (self w) !! site)).
Proof.
  simpl. destruct (get_daily_summary_frame clock w) as (Hs & Hc & _).
  destruct (get_daily_summary_raises clock w) as [Hraise Hfails].
  split; [done|]. split; [done|]. split; [|split].
  - split.
    + intros [e (site & minutes & Hm & He)%Hraise]. exists site.
      split; [eauto|]. apply (summary_entry_fails _ _ minutes); eauto.
    + intros (site & [minutes Hm] & [e He]%(summary_entry_fails _ _ minutes)).
      eauto.
  - intros e (site & minutes & Hm & He)%Hraise. exists site. split; [eauto|].
    by apply summary_entry_Raise in He.
  - intros summary Hsum.
    destruct (get_daily_summary_sites clock w summary Hsum) as [Hdate Hsites].
    split; [done|]. intros site. rewrite Hsites.
    destruct (daily_stats (self w) !! site) as [minutes|] eqn:Hm; simpl;
      [|split; by intros [? ?]].
    split; [eauto|]. intros _.
    destruct (summary_entry _ _ _) as [e|e] eqn:He; [by eexists|].
    destruct (Hfails site minutes e Hm He) as [e' He']. congruence.
Qed.

(** Asking for the summary twice in a row gives the same sites with the
    same figures, and the very same summary when both calls read the clock
    on the same date; a summary that raises, raises again. *)
Theorem get_daily_summary_idempotent w :
  let r1 := get_daily_summary clock w in
  let r2 := get_daily_summary clock (fst r1) in
  (∀ s1, snd r1 = Ok s1 →
     ∃ s2, snd r2 = Ok s2 ∧ sites s2 = sites s1 ∧
           (date_of (clock (S (ticks w))) = date_of (clock (ticks w)) → s2 = s1)) ∧
  (∀ e, snd r1 = Raise e → snd r2 = Raise e).
Proof.
  simpl. rewrite !get_daily_summary_eq. simpl.
  destruct (summary_sites _ _ _) as [sites|x]; simpl; (split; [|done]); [|done].
  intros s1 [= <-]. eexists. split; [done|]. split; [done|].
  simpl. by intros ->.
Qed.

(** In every entry of the summary [time_spent] is the accumulated total
    and [limit] the configured daily limit; [over_limit] holds exactly when
    the total exceeds the limit.  For a positive limit [percentage] is
    [time_spent / limit * 100]; for a zero or negative limit it is 0, with
    no division, even when the total is over the limit.  The percentage is
    not negative when the total is not, it is at least 100 when the entry
    is over a positive limit, and an entry whose percentage is above 100 is
    over the limit. *)
Theorem summary_percentage_and_over_limit w summary site e :
  snd (get_daily_summary clock w) = Ok summary →
  sites summary !! site = Some e →
  daily_stats (self w) !! site = Some (time_spent e) ∧
  (∃ sc, tracked_sites (self w) !! site = Some sc ∧
         daily_limit sc = Some (limit e)) ∧
  (over_limit e = true ↔ (limit e < time_spent e)%Q) ∧
  ((0 < limit e)%Q → percentage e = (time_spent e / limit e * 100)%Q) ∧
  (¬ (0 < limit e)%Q → percentage e = 0%Q) ∧
  ((0 <= time_spent e)%Q → (0 <= percentage e)%Q) ∧
  ((0 < limit e)%Q → over_limit e = true → (100 <= percentage e)%Q) ∧
  ((100 < percentage e)%Q → over_limit e = true).
Proof.
  intros Hsum He.
  destruct (get_daily_summary_sites clock w summary Hsum) as [_ Hsites].
  rewrite Hsites in He.
  destruct (daily_stats (self w) !! site) as [minutes|]; [|done]. simpl in He.
  apply value_Some, summary_entry_Ok in He as (sc & l & Hsc & Hl & -> & _).
  simpl. split; [done|]. split; [eauto|].
  assert (Hover : Qgt_bool minutes l = true ↔ (l < minutes)%Q)
    by apply Qgt_bool_iff.
  split; [done|]. rewrite Hover.
  destruct (Qgt_bool l 0) eqn:Hpos.
  - apply Qgt_bool_iff in Hpos.
    assert (Hdiv : ∀ x y, (x <= y)%Q → (x / l * 100 <= y / l * 100)%Q).
    { intros x y Hxy. apply Qmult_le_compat_r; [|done]. by apply Qdiv_le_mono. }
    assert (H0 : (0 / l * 100 == 0)%Q) by (field; lra).
    assert (H1 : (l / l * 100 == 100)%Q) by (field; lra).
    split; [done|]. split; [done|]. split; [|split].
    + intros Hm. apply Qle_trans with (0 / l * 100)%Q; [|by apply Hdiv].
      rewrite H0. apply Qle_refl.
    + intros _ Hlt. apply Qle_trans with (l / l * 100)%Q; [|apply Hdiv; lra].
      rewrite H1. apply Qle_refl.
    + intros Hp. apply Qnot_le_lt. intros Hle. apply Hdiv in Hle.
      rewrite H1 in Hle. by apply Qle_not_lt in Hle.
  - assert (¬ (0 < l)%Q).
    { intros H. apply Qgt_bool_iff in H. congruence. }
    split; [done|]. split; [done|]. split; [|split]; [by intros _|done|].
    intros H100. by vm_compute in H100.
Qed.

(** One turn of the tray's loop leaves the monitor as [update_session]
    leaves it, whether the poll raises and whether plyer works.  It hands
    the notifier exactly one notification when the poll emits an event and
    none otherwise; the notification carries the event's message and stays
    10 seconds exactly when the event is a NUDGE with more than ten minutes
    remaining, and 15 seconds for every other NUDGE and every BLOCK. *)
Theorem loop_turn_notifies keys p ok t :
  let r := update_session clock (detect_current_site keys (window_title p)) (world t) in
  let t' := monitor_loop_turn clock keys p ok t in
  world t' = fst r ∧ running t' = running t ∧ icon_running t' = icon_running t ∧
  (emitted r = None → desk t' = desk t) ∧
  (∀ ev, emitted r = Some ev →
     ∃ n, recorded ok (desk t) (desk t') n ∧
          app_name n = "DoomScrollDoctor" ∧
          message n = NudgeText (event_message ev) ∧
          (timeout n = 10 ∨ timeout n = 15) ∧
          (timeout n = 10 ↔
           ∃ severity site m session_time total limit,
             ev = NUDGE severity site m session_time total limit ∧
             (10 < limit - total)%Q)).
Proof.
  simpl. unfold monitor_loop_turn.
  destruct (update_session clock _ (world t)) as [w res] eqn:Hup.
  assert (Hem : emitted (update_session clock
                  (detect_current_site keys (window_title p)) (world t))
                = match res with Ok o => o | Raise _ => None end)
    by (by rewrite Hup).
  destruct res as [[nudge|]|e]; simpl; repeat split; try done.
  intros ev. unfold emitted. simpl. intros [= <-].
  destruct nudge as [site m|severity site m st tt lim]; simpl.
  - eexists. split; [apply send_notification_recorded|]. simpl.
    repeat split; try done; [by right|].
    by intros (? & ? & ? & ? & ? & ? & ? & _).
  - destruct (update_session_NUDGE _ _ _ _ _ _ _ _ Hem)
      as (_ & _ & _ & _ & _ & _ & _ & _ & _ & _ & _ & _ & Hsel).
    apply select_severity_info in Hsel.
    destruct severity; (eexists; split; [apply send_notification_recorded|]);
      simpl; repeat split; try done; try (by left); try (by right).
    + intros _. do 6 eexists. split; [done|]. by apply Hsel.
    + intros (? & ? & ? & ? & ? & ? & [= <- <- <- <- <- <-] & Hrem).
      by apply Hsel in Hrem.
Qed.

(** Failures of the notifier and exceptions of a poll never change what is
    tracked: as long as Quit is not clicked, the monitor inside the tray
    application goes through exactly the states of the bare sequence of
    polls and summaries, whatever plyer does, and the loop keeps running. *)
Theorem tray_tracking_is_isolated keys inputs t :
  running t = true → icon_running t = true →
  forallb (λ i, negb (is_quit i)) inputs = true →
  let t' := tray_run clock keys inputs t in
  world t' = run clock (map (tray_action keys) inputs) (world t) ∧
  running t' = true ∧ icon_running t' = true.
Proof.
  revert t. induction inputs as [|i inputs IH]; intros t Hr Hi Hq; [done|].
  simpl in Hq. apply andb_true_iff in Hq as [Hq1 Hq2].
  apply negb_true_iff in Hq1.
  destruct (tray_step_world keys i t Hr Hi Hq1) as (Hw & Hr' & Hi').
  destruct (IH (tray_step clock keys i t) Hr' Hi' Hq2) as (IHw & IHr & IHi).
  split; [|done]. unfold tray_run, run in *. simpl. by rewrite IHw, Hw.
Qed.

(** Quit stops the application only if the final summary can be computed.
    When it can, the summary is handed to the notifier with a timeout of 20
    seconds, both flags are cleared and nothing happens afterwards; the
    monitor itself is untouched, an open session included.  When
    [get_daily_summary] raises (the entry of a site of today's totals cannot
    be computed), the exception leaves [quit_app] before the flags are
    cleared: no notification, and the application keeps running. *)
Theorem quit_stops_iff_summary keys ok t :
  let r := tray_quit_app clock ok t in
  self (world (fst r)) = self (world t) ∧
  (snd r = Ok tt ↔ ∃ summary, snd (get_daily_summary clock (world t)) = Ok summary) ∧
  (∀ summary, snd (get_daily_summary clock (world t)) = Ok summary →
     running (fst r) = false ∧ icon_running (fst r) = false ∧
     recorded ok (desk t) (desk (fst r))
       (mkNotification "📊 DoomScrollDoctor - Daily Summary" (summary_body summary)
          "DoomScrollDoctor" 20 None) ∧
     ∀ i, tray_step clock keys i (fst r) = fst r) ∧
  (∀ e, snd r = Raise e →
     snd (get_daily_summary clock (world t)) = Raise e ∧
     (∃ site, is_Some (daily_stats (self (world t)) !! site) ∧
              entry_fails (tracked_sites (self (world t))) site) ∧
     running (fst r) = running t ∧ icon_running (fst r) = icon_running t ∧
     desk (fst r) = desk t).
Proof.
  simpl. unfold tray_quit_app.
  destruct (get_daily_summary_frame clock (world t)) as (Hself & _).
  destruct (get_daily_summary_raises clock (world t)) as [Hraise _].
  destruct (get_daily_summary clock (world t)) as [w [summary|e]]; simpl in *.
  - split; [done|]. split; [split; eauto|]. split; [|done].
    intros ? [= <-]. repeat split; try done.
    + apply (send_notification_recorded default_notifier).
    + by intros [].
  - split; [done|]. split; [split; [done|by intros [? ?]]|]. split; [done|].
    intros e' [= <-].
    destruct (Hraise e eq_refl) as (site & minutes & Hm & Hent).
    repeat split; try done. exists site. split; [eauto|].
    apply (summary_entry_fails _ _ minutes). eauto.
Qed.

(** The daily summary notification says that no time was tracked exactly
    when today's totals are empty, that is when no session has been closed
    since the last rollover, whether or not a session is open.  Otherwise
    it has one line per site of the totals, with the accumulated minutes
    and the limit, marked as over exactly when the minutes exceed the
    limit. *)
Theorem summary_notification_body w summary :
  snd (get_daily_summary clock w) = Ok summary →
  (summary_body summary = NoTimeTracked ↔ daily_stats (self w) = ∅) ∧
  (daily_stats (self w) ≠ ∅ →
   ∃ lines,
     summary_body summary = ScreenTime lines ∧
     ∀ site,
       (is_Some (lines !! site) ↔ is_Some (daily_stats (self w) !! site)) ∧
       (∀ l, lines !! site = Some l →
          daily_stats (self w) !! site = Some (line_time_spent l) ∧
          (over l = true ↔ (line_limit l < line_time_spent l)%Q))).
Proof.
  intros Hsum.
  destruct (get_daily_summary_sites clock w summary Hsum) as [_ Hsites].
  assert (Hdom : ∀ site, is_Some (sites summary !! site)
                         ↔ is_Some (daily_stats (self w) !! site)).
  { intros site. rewrite Hsites.
    destruct (daily_stats (self w) !! site) as [minutes|] eqn:Hm; simpl;
      [|split; by intros [? ?]].
    split; [eauto|]. intros _.
    destruct (summary_entry _ _ _) as [e|e] eqn:He; [by eexists|].
    destruct (proj2 (get_daily_summary_raises clock w) site minutes e Hm He)
      as [e' He'].
    congruence. }
  assert (Hempty : sites summary = ∅ ↔ daily_stats (self w) = ∅).
  { rewrite !map_empty. split; intros H site; specialize (H site);
      apply eq_None_not_Some; intros Hs; apply Hdom in Hs || apply Hdom in Hs;
      by rewrite H in Hs; destruct Hs. }
  unfold summary_body. split.
  - case_bool_decide as E; [by rewrite <- Hempty|].
    split; [done|]. intros H. by apply Hempty in H.
  - intros Hne. rewrite bool_decide_false by (by rewrite Hempty).
    eexists. split; [done|]. intros site. rewrite lookup_fmap. split.
    + rewrite <- Hdom. by rewrite fmap_is_Some.
    + intros l Hl. rewrite Hsites in Hl.
      destruct (daily_stats (self w) !! site) as [minutes|]; [|done]. simpl in *.
      destruct (summary_entry _ _ _) as [e|] eqn:He; [|done].
      injection Hl as <-. simpl.
      apply summary_entry_Ok in He as (sc & limit & _ & _ & -> & _). simpl.
      split; [done|]. apply Qgt_bool_iff.
Qed.

(** The nudge decision on a poll of an ongoing session whose site has a
    [daily_limit] and [nudge_interval = I]: a NUDGE is emitted exactly when
    the BLOCK condition fails, the gate test passes and [daily_limit]
    converts to a float.  When a nudge time is stored the gate test is
    [session_minutes >= I] together with [I] minutes or more since that
    time; as long as none is stored and [I <= 999] it is
    [session_minutes >= I] alone.  So no nudge is emitted before the session
    has lasted [I] minutes, nor less than [I] minutes after the stored
    nudge time, however often the monitor polls.  An emitted NUDGE stores a
    clock reading taken during its poll in [last_nudge_time], and
    [last_nudge_time] changes at no other moment than a poll whose gate
    test passed: one that emits a NUDGE, or one that raises
    [OverflowError]. *)
Theorem nudge_gate_decision d w site started sc L I :
  current_site (self w) = Some site → truthy (Some site) = true →
  d = Some site → session_start (self w) = Some started →
  tracked_sites (self w) !! site = Some sc →
  daily_limit sc = Some L → nudge_interval sc = Some I →
  let w1 := after_reset clock w in
  let r := update_session clock d w in
  (is_NUDGE (emitted r) = true ↔
     block_condition sc (total_today clock site started w1) L = false ∧
     nudge_gate clock I started w1 = true ∧ fits_float L = true) ∧
  (∀ last, last_nudge_time (self w) = Some last →
     (nudge_gate clock I started w1 = true ↔
      (I <= session_minutes clock started w1)%Q ∧
      (I <= minutes_between last (clock (S (ticks w1))))%Q)) ∧
  (last_nudge_time (self w) = None → (I <= 999)%Q →
     (nudge_gate clock I started w1 = true ↔
      (I <= session_minutes clock started w1)%Q)) ∧
  (is_NUDGE (emitted r) = true →
     (I <= session_minutes clock started w1)%Q ∧
     ∃ k, (ticks w1 < k < ticks (fst r))%nat ∧
          last_nudge_time (self (fst r)) = Some (clock k)) ∧
  (∀ a w', last_nudge_time (self (step clock a w')) = last_nudge_time (self w') ∨
           ∃ d', a = Poll d' ∧
                 (is_NUDGE (emitted (update_session clock d' w')) = true ∨
                  snd (update_session clock d' w') = Raise OverflowError)).
Proof.
  intros Hc Ht -> Hs Hsc HL HI w1 r.
  destruct (after_reset_frame clock w) as (_ & Hc1 & Hs1 & Hl1 & Hts1 & _).
  fold w1 in Hc1, Hs1, Hl1, Hts1.
  assert (Hr : r = check_for_nudge clock w1).
  { subst r. apply update_session_ongoing; by rewrite Hc. }
  pose proof (check_for_nudge_eq clock w1 site started sc L I) as Heq.
  rewrite Hc1, Hs1, Hts1 in Heq. specialize (Heq Hc Ht Hs Hsc HL HI).
  simpl in Heq. rewrite <- Hr in Heq.
  pose proof (nudge_gate_iff clock w site started sc L I Hc Ht Hs Hsc HL HI)
    as Hiff.
  simpl in Hiff. fold w1 r in Hiff.
  split; [done|]. split; [|split; [|split]].
  - intros last Hn. rewrite nudge_gate_true.
    unfold minutes_since_last_nudge. by rewrite Hl1, Hn.
  - intros Hn HI999. rewrite nudge_gate_true.
    unfold minutes_since_last_nudge. rewrite Hl1, Hn. tauto.
  - intros Hn. split.
    { apply Hiff in Hn as (_ & Hg & _). by apply nudge_gate_true in Hg as [? _]. }
    revert Hn. rewrite Heq. unfold emitted.
    destruct (block_condition _ _ _); simpl; [done|].
    destruct (nudge_gate _ _ _ _); simpl; [|done].
    intros _. rewrite Hl1.
    destruct (last_nudge_time (self w)); eexists; (split; [|reflexivity]); lia.
  - apply step_last_nudge_time.
Qed.

End More.

(** [detect_current_site] returns the first key of the configuration, in
    the dict's order, that matches the title, and [None] exactly when no
    key matches; so what it returns is always a key of [tracked_sites]. *)
Theorem detect_current_site_first_match keys title :
  (∀ site,
     detect_current_site keys title = Some site ↔
     ∃ before after,
       keys = before ++ site :: after ∧
       Forall (λ k, site_matches title k = false) before ∧
       site_matches title site = true) ∧
  (detect_current_site keys title = None ↔
   Forall (λ k, site_matches title k = false) keys) ∧
  (∀ site, detect_current_site keys title = Some site → site ∈ keys).
Proof.
  split; [|split].
  - intros site. apply detect_current_site_Some.
  - apply detect_current_site_None.
  - intros site. apply detect_current_site_elem.
Qed.

(** A key matches a title exactly when the title contains the key or the
    key with its [.com] occurrences removed, where [replace_dot_com] is
    the one function that leaves a string without [.com] as it is and, in
    a string whose first [.com] comes after [a], keeps [a], drops that
    [.com] and goes on with what follows it (so what the removal brings
    together is not scanned again).  A key without [.com] therefore matches
    exactly the titles that contain it, and a key that is nothing but
    [.com] occurrences matches every title, the empty one included. *)
Theorem site_matches_spec :
  (∀ title site,
     site_matches title site = true ↔
     (∃ pre post,
        title = String.append pre (String.append (replace_dot_com site) post)) ∨
     (∃ pre post, title = String.append pre (String.append site post))) ∧
  (∀ s, str_in ".com" s = false → replace_dot_com s = s) ∧
  (∀ a b, str_in ".com" (String.append a ".co") = false →
     replace_dot_com (String.append a (String.append ".com" b))
     = String.append a (replace_dot_com b)) ∧
  (∀ f : string → string,
     (∀ s, str_in ".com" s = false → f s = s) →
     (∀ a b, str_in ".com" (String.append a ".co") = false →
        f (String.append a (String.append ".com" b)) = String.append a (f b)) →
     ∀ s, f s = replace_dot_com s) ∧
  (∀ title site, str_in ".com" site = false →
     (site_matches title site = true ↔
      ∃ pre post, title = String.append pre (String.append site post))) ∧
  (∀ title site, replace_dot_com site = EmptyString →
     site_matches title site = true) ∧
  replace_dot_com "youtube.com" = "youtube" ∧
  replace_dot_com "a.com.comb" = "ab" ∧
  replace_dot_com ".c.comom" = ".com".
Proof.
  split; [|split; [|split; [|split; [|split; [|split]]]]].
  - intros title site. unfold site_matches.
    by rewrite orb_true_iff, !str_in_spec.
  - intros s. apply remove_dot_com_absent.
  - apply replace_dot_com_first.
  - apply replace_dot_com_unique.
  - intros title site H. unfold site_matches, replace_dot_com.
    rewrite (remove_dot_com_absent _ H), orb_diag. apply str_in_spec.
  - intros title site H. unfold site_matches. by rewrite H, str_in_empty.
  - by vm_compute.
Qed.



(** A log of two lines whose last line has no newline: the appended text
    continues that line, the number of lines stays 2, and the most recent
    record read is neither the old last one nor the appended one. *)
Example append_after_unterminated_line :
  let file := Some (mkLogFile ["1"] "2") in
  let file' := _append_jsonl dumps_number true file 3 in
  file' = Some (mkLogFile ["1"; "23"] EmptyString) ∧
  get_sessions_count true (log_view loads_number <$> file) = 2 ∧
  get_sessions_count true (log_view loads_number <$> file') = 2 ∧
  get_recent_sessions true (log_view loads_number <$> file) 1 = [2] ∧
  get_recent_sessions true (log_view loads_number <$> file') 1 = [23].
Proof. repeat split; by vm_compute. Qed.

(** ** The further properties at concrete inputs *)

Lemma default_keys_tracked k :
  k ∈ default_keys → is_Some (default_sites !! k).
Proof.
  unfold default_keys. rewrite !elem_of_cons, elem_of_nil.
  intros [->|[->|[->|[->|[]]]]]; by eexists.
Qed.

Lemma default_sites_complete : complete_config default_sites.
Proof.
  unfold default_sites. intros site sc H.
  repeat (apply lookup_insert_Some in H as [[_ <-]|[_ H]];
          [split; by eexists|]).
  by rewrite lookup_empty in H.
Qed.

Lemma default_limits_convert : limits_convert default_sites.
Proof.
  unfold default_sites. intros site sc L H HL.
  repeat (apply lookup_insert_Some in H as [[_ <-]|[_ H]];
          [injection HL as <-; by vm_compute|]).
  by rewrite lookup_empty in H.
Qed.

Lemma default_keys_named :
  Forall (λ k, replace_dot_com k ≠ EmptyString) default_keys.
Proof. unfold default_keys. repeat constructor; by vm_compute. Qed.

Lemma polls_never_raise_with_complete_config_witness :
  let w0 := fresh_world ten_minute_clock default_config default_sites in
  let inputs := [Window (Foreground "funny cats - youtube"); StatsClick;
                 Window (Foreground "funny cats - youtube")] in
  let w := run ten_minute_clock (map (to_action default_keys) inputs) w0 in
  new_monitor ten_minute_clock NoFile = Ok w0 ∧
  (∃ o, snd (update_session ten_minute_clock
               (detect_current_site default_keys
                  (window_title (Foreground "r/rocq - reddit"))) w) = Ok o) ∧
  (∃ s, snd (get_daily_summary ten_minute_clock w) = Ok s).
Proof.
  intros w0 inputs w.
  destruct (polls_never_raise_with_complete_config ten_minute_clock NoFile w0
              default_keys inputs eq_refl default_keys_tracked default_sites_complete
              default_limits_convert)
    as [Hpoll Hsum].
  exact (conj eq_refl (conj (Hpoll (Foreground "r/rocq - reddit")) Hsum)).
Defined.

Lemma blind_probe_tracks_nothing_witness :
  let w0 := fresh_world ten_minute_clock default_config default_sites in
  let inputs := [Window NoWin32; Window ProbeRaises; StatsClick; Window NoWin32] in
  let w := run ten_minute_clock (map (to_action default_keys) inputs) w0 in
  new_monitor ten_minute_clock NoFile = Ok w0 ∧
  current_site (self w) = None ∧ daily_stats (self w) = ∅ ∧ console w = [].
Proof.
  intros w0 inputs w.
  assert (Hblind : Forall (λ i, ∀ p, i = Window p → window_title p = EmptyString) inputs).
  { repeat constructor; by intros p [= <-]. }
  destruct (blind_probe_tracks_nothing ten_minute_clock NoFile w0 default_keys
              inputs eq_refl default_keys_named Hblind)
    as (Hc & _ & Hs & Hco & _).
  exact (conj eq_refl (conj Hc (conj Hs Hco))).
Defined.

Lemma hard_block_site_never_exceeded_witness :
  let w0 := fresh_world ten_minute_clock strict_config strict_sites in
  let w := run ten_minute_clock [Poll (Some youtube)] w0 in
  let w1 := after_reset ten_minute_clock w in
  let session_time := session_minutes ten_minute_clock (20 * minute) w1 in
  let total := total_today ten_minute_clock youtube (20 * minute) w1 in
  let m := FriendlyReminder youtube session_time (60 - total)%Q in
  emitted (update_session ten_minute_clock (Some youtube) w)
    = Some (NUDGE info youtube m session_time total 60%Q) ∧
  tracked_sites (self w) !! youtube
    = Some (mkSiteConfig (Some 60%Q) (Some 15%Q) (Some true)) ∧
  (total < 60)%Q.
Proof.
  intros w0 w w1 session_time total m.
  assert (Hev : emitted (update_session ten_minute_clock (Some youtube) w)
                = Some (NUDGE info youtube m session_time total 60%Q))
    by (by vm_compute).
  assert (Hsc : tracked_sites (self w) !! youtube
                = Some (mkSiteConfig (Some 60%Q) (Some 15%Q) (Some true)))
    by (by vm_compute).
  exact (conj Hev (conj Hsc (proj1
    (hard_block_site_never_exceeded ten_minute_clock (Some youtube) w info youtube m
       session_time total 60%Q _ Hev Hsc eq_refl)))).
Defined.

Lemma nudge_reports_consistent_figures_witness :
  let w0 := fresh_world ten_minute_clock default_config default_sites in
  let acts := [Poll (Some youtube)] in
  let w := run ten_minute_clock acts w0 in
  let w1 := after_reset ten_minute_clock w in
  let session_time := session_minutes ten_minute_clock (20 * minute) w1 in
  let total := total_today ten_minute_clock youtube (20 * minute) w1 in
  let m := FriendlyReminder youtube session_time (60 - total)%Q in
  monotone ten_minute_clock ∧ new_monitor ten_minute_clock NoFile = Ok w0 ∧
  emitted (update_session ten_minute_clock (Some youtube) w)
    = Some (NUDGE info youtube m session_time total 60%Q) ∧
  ∃ sc I,
    tracked_sites (self w) !! youtube = Some sc ∧
    nudge_interval sc = Some I ∧ daily_limit sc = Some 60%Q ∧
    (I <= session_time)%Q ∧ (0 <= session_time)%Q ∧ (session_time <= total)%Q.
Proof.
  intros w0 acts w w1 session_time total m.
  assert (Hev : emitted (update_session ten_minute_clock (Some youtube) w)
                = Some (NUDGE info youtube m session_time total 60%Q))
    by (by vm_compute).
  exact (conj ten_minute_clock_monotone (conj eq_refl (conj Hev
    (nudge_reports_consistent_figures ten_minute_clock NoFile w0 acts (Some youtube)
       info youtube m session_time total 60%Q
       ten_minute_clock_monotone eq_refl Hev)))).
Defined.

Lemma summary_percentage_and_over_limit_witness :
  let w0 := fresh_world ten_minute_clock default_config default_sites in
  let w := run ten_minute_clock [Poll (Some reddit); Poll None] w0 in
  let minutes := (0 + minutes_between (20 * minute)%Z (40 * minute)%Z)%Q in
  let e := mkSiteSummary minutes 30 (minutes / 30 * 100) false in
  let summary := mkSummary 0 {[ reddit := e ]} in
  snd (get_daily_summary ten_minute_clock w) = Ok summary ∧
  sites summary !! reddit = Some e ∧
  (over_limit e = true ↔ (limit e < time_spent e)%Q) ∧
  (0 <= percentage e)%Q.
Proof.
  intros w0 w minutes e summary.
  assert (Hsum : snd (get_daily_summary ten_minute_clock w) = Ok summary)
    by (by vm_compute).
  assert (He : sites summary !! reddit = Some e) by (by vm_compute).
  assert (Hpos : (0 <= time_spent e)%Q) by (by vm_compute).
  destruct (summary_percentage_and_over_limit ten_minute_clock w summary reddit e
              Hsum He) as (_ & _ & Hover & _ & _ & Hnonneg & _).
  exact (conj Hsum (conj He (conj Hover (Hnonneg Hpos)))).
Defined.

Lemma tray_tracking_is_isolated_witness :
  let w0 := fresh_world ten_minute_clock default_config default_sites in
  let t := tray_start false w0 in
  let inputs := [LoopTurn (Foreground "funny cats - youtube") false;
                 LoopTurn (Foreground "funny cats - youtube") false;
                 ShowStatsClick true; LoopTurn ProbeRaises true] in
  let t' := tray_run ten_minute_clock default_keys inputs t in
  (running t = true ∧ icon_running t = true) ∧
  world t' = run ten_minute_clock (map (tray_action default_keys) inputs) w0 ∧
  running t' = true ∧ icon_running t' = true.
Proof.
  intros w0 t inputs t'.
  exact (conj (conj eq_refl eq_refl)
    (tray_tracking_is_isolated ten_minute_clock default_keys inputs t
       eq_refl eq_refl eq_refl)).
Defined.

Lemma summary_notification_body_witness :
  let w0 := fresh_world ten_minute_clock default_config default_sites in
  let w := run ten_minute_clock [Poll (Some youtube)] w0 in
  let summary := mkSummary 0 ∅ in
  snd (get_daily_summary ten_minute_clock w) = Ok summary ∧
  current_site (self w) = Some youtube ∧
  daily_stats (self w) = ∅ ∧
  summary_body summary = NoTimeTracked.
Proof.
  intros w0 w summary.
  assert (Hsum : snd (get_daily_summary ten_minute_clock w) = Ok summary)
    by (by vm_compute).
  assert (Hs : daily_stats (self w) = ∅) by (by vm_compute).
  exact (conj Hsum (conj eq_refl (conj Hs
    (proj2 (proj1 (summary_notification_body ten_minute_clock w summary Hsum)) Hs)))).
Defined.

Lemma nudge_gate_decision_witness :
  let w0 := fresh_world ten_minute_clock default_config default_sites in
  let w := run ten_minute_clock [Poll (Some youtube)] w0 in
  let w1 := after_reset ten_minute_clock w in
  let sc := mkSiteConfig (Some 60%Q) (Some 15%Q) (Some false) in
  (current_site (self w) = Some youtube ∧ truthy (Some youtube) = true ∧
   session_start (self w) = Some (20 * minute) ∧
   tracked_sites (self w) !! youtube = Some sc) ∧
  (is_NUDGE (emitted (update_session ten_minute_clock (Some youtube) w)) = true ↔
     block_condition sc (total_today ten_minute_clock youtube (20 * minute) w1) 60 = false ∧
     nudge_gate ten_minute_clock 15 (20 * minute) w1 = true ∧
     fits_float 60 = true).
Proof.
  intros w0 w w1 sc.
  assert (H1 : current_site (self w) = Some youtube) by reflexivity.
  assert (H2 : truthy (Some youtube) = true) by reflexivity.
  assert (H3 : session_start (self w) = Some (20 * minute)) by reflexivity.
  assert (H4 : tracked_sites (self w) !! youtube = Some sc) by (by vm_compute).
  split; [done|].
  exact (proj1 (nudge_gate_decision ten_minute_clock (Some youtube) w youtube
                  (20 * minute) sc 60%Q 15%Q H1 H2 eq_refl H3 H4 eq_refl eq_refl)).
Defined.

(** The window of a debugger, a video open in a tab, a thread on a forum:
    detection goes by the name of the site anywhere in the title, and the
    first key of the configuration wins. *)
Example detect_current_site_examples :
  detect_current_site default_keys "funny cats - youtube - mozilla firefox"
    = Some "youtube.com" ∧
  detect_current_site default_keys "reddit.com: youtube drama - chrome"
    = Some "youtube.com" ∧
  detect_current_site default_keys "inbox - mail" = None ∧
  detect_current_site [".com"; "youtube.com"] "inbox - mail" = Some ".com".
Proof. repeat split; by vm_compute. Qed.

(** A site without [daily_limit]: the session is timed, the ongoing poll
    raises, and Quit then fails to quit. *)
Example missing_daily_limit_example :
  let sites : gmap string SiteConfig :=
    {[ youtube := mkSiteConfig None (Some 15%Q) None ]} in
  let w0 := fresh_world ten_minute_clock (mkConfig (Some sites) None) sites in
  let w := run ten_minute_clock [Poll (Some youtube)] w0 in
  let w' := run ten_minute_clock [Poll (Some youtube); Poll (Some youtube); Poll None] w0 in
  let t := mkTray true true empty_desk w' in
  snd (update_session ten_minute_clock (Some youtube) w) = Raise KeyError ∧
  is_Some (daily_stats (self w') !! youtube) ∧
  snd (tray_quit_app ten_minute_clock true t) = Raise KeyError ∧
  running (fst (tray_quit_app ten_minute_clock true t)) = true.
Proof.
  repeat split; try (by vm_compute). eexists. by vm_compute.
Qed.

(** A daily limit of [2^1024], an int that no double holds: the poll that
    passes the gate stores the time of the nudge and then raises at
    [daily_limit - total_today], so no nudge is ever returned for the site;
    once a session on it is closed the summary raises at [minutes / limit]
    and Quit fails to quit. *)
Example huge_daily_limit_example :
  let w0 := fresh_world ten_minute_clock huge_limit_config huge_limit_sites in
  let w := run ten_minute_clock [Poll (Some youtube)] w0 in
  let r := update_session ten_minute_clock (Some youtube) w in
  let w' := run ten_minute_clock [Poll (Some youtube); Poll None] w0 in
  let t := mkTray true true empty_desk w' in
  fits_float huge_limit = false ∧
  fits_float (huge_limit - 1) = false ∧
  last_nudge_time (self w) = None ∧
  snd r = Raise OverflowError ∧
  last_nudge_time (self (fst r)) = Some (50 * minute) ∧
  snd (get_daily_summary ten_minute_clock w') = Raise OverflowError ∧
  snd (tray_quit_app ten_minute_clock true t) = Raise OverflowError ∧
  running (fst (tray_quit_app ten_minute_clock true t)) = true.
Proof. repeat split; by vm_compute. Qed.
